(** * DocStore: the search query compiler, ingestion and archiving of Main.py

    A shallow embedding of [src/Main.py]: [parse_search_query],
    [search_documents], [compute_sha256], [add_document], [toggle_archive],
    the guard of the "Add Document" form, the archived filter of the
    Documents page and the count query of the Tags page.

    Conventions of the model.
    - A Python [str] is a [string]; a character is a code point in 0..255.
    - The three SQLite tables follow their keys: [Documents] is a finite
      map from its primary key [document_id], [Tags] a finite set of
      (document_id, tag) pairs (the composite primary key), [Files] a list
      in [file_id] order.  The only writer of the tables is [add_document],
      which binds Python [str] values, so no column holds NULL.
    - The storage directory is a finite map from path to file content.
    - The libraries the program calls (hashlib, python-magic, SQLite's date
      function) are parameters of a section. *)

From Stdlib Require Import NArith Ascii String List Sorting.Sorted.
From stdpp Require Import base option list gmap sets strings sorting.

(** ** Python exceptions of the [sqlite3] module *)

Inductive exn :=
| IntegrityError     (* a PRIMARY KEY constraint failed *)
| OperationalError   (* the statement does not parse *)
| ProgrammingError.  (* wrong number of bindings supplied *)

Inductive result (A : Type) :=
| Ok (a : A)
| Raise (e : exn).
Arguments Ok {A} a.
Arguments Raise {A} e.

Definition bind_result {A B} (r : result A) (k : A -> result B) : result B :=
  match r with
  | Ok a => k a
  | Raise e => Raise e
  end.

Definition map_result {A B} (f : A -> B) (r : result A) : result B :=
  match r with
  | Ok a => Ok (f a)
  | Raise e => Raise e
  end.

(** ** Strings as Python and SQLite see them *)

Module Str.

(** [str.isspace] on the code points 0..255; [re]'s [\s] agrees with it. *)
Definition isspace (c : ascii) : bool :=
  let n := N_of_ascii c in
  (((9 <=? n) && (n <=? 13)) || ((28 <=? n) && (n <=? 32))
   || (n =? 133) || (n =? 160))%N.

Fixpoint lstrip (s : string) : string :=
  match s with
  | EmptyString => EmptyString
  | String c s' => if isspace c then lstrip s' else s
  end.

Fixpoint rstrip (s : string) : string :=
  match s with
  | EmptyString => EmptyString
  | String c s' =>
      match rstrip s' with
      | EmptyString => if isspace c then EmptyString else String c EmptyString
      | r => String c r
      end
  end.

(** [s.strip()] *)
Definition strip (s : string) : string := rstrip (lstrip s).

(** [re.split(r'\s+', s)]: cut at every maximal run of white space; a run at
    either end leaves an empty piece there, and the empty string gives one
    empty piece.  [in_run] tells that the previous character was a space. *)
Fixpoint re_split_spaces (in_run : bool) (s : string) : list string :=
  match s with
  | EmptyString => [EmptyString]
  | String c s' =>
      if isspace c then
        if in_run then re_split_spaces true s'
        else EmptyString :: re_split_spaces true s'
      else
        match re_split_spaces false s' with
        | piece :: pieces => String c piece :: pieces
        | [] => [String c EmptyString]
        end
  end.

(** [s.split(sep)] for a one-character separator *)
Fixpoint split_on (sep : ascii) (s : string) : list string :=
  match s with
  | EmptyString => [EmptyString]
  | String c s' =>
      if Ascii.eqb c sep then EmptyString :: split_on sep s'
      else
        match split_on sep s' with
        | piece :: pieces => String c piece :: pieces
        | [] => [String c EmptyString]
        end
  end.

(** [s[n:]] *)
Fixpoint drop (n : nat) (s : string) : string :=
  match n, s with
  | O, _ => s
  | S n', String _ s' => drop n' s'
  | S _, EmptyString => EmptyString
  end.

(** [s.startswith(p)] *)
Definition startswith (p s : string) : bool := String.prefix p s.

(** [s.endswith(p)] *)
Definition endswith (p s : string) : bool :=
  String.prefix (String.rev p) (String.rev s).

(** [sep.join(l)] *)
Definition join (sep : string) (l : list string) : string := String.concat sep l.

(** SQLite folds the case of the letters A..Z only. *)
Definition fold_case (c : ascii) : ascii :=
  let n := N_of_ascii c in
  if ((65 <=? n) && (n <=? 90))%N then ascii_of_N (n + 32) else c.

(** [X LIKE P] of SQLite, without ESCAPE: [%] stands for any run of
    characters, [_] for one character, any other character for itself up to
    the case of ASCII letters. *)
Fixpoint like (p : string) : string -> bool :=
  match p with
  | EmptyString =>
      fun s => match s with EmptyString => true | String _ _ => false end
  | String c p' =>
      if Ascii.eqb c "%" then
        fix any_run (s : string) : bool :=
          like p' s
          || match s with
             | EmptyString => false
             | String _ s' => any_run s'
             end
      else if Ascii.eqb c "_" then
        fun s => match s with
                 | EmptyString => false
                 | String _ s' => like p' s'
                 end
      else
        fun s => match s with
                 | EmptyString => false
                 | String d s' =>
                     Ascii.eqb (fold_case c) (fold_case d) && like p' s'
                 end
  end.

(** the f-string [f"%{v}%"] *)
Definition contains_pattern (v : string) : string := ("%" ++ v ++ "%")%string.

(** [sub in s] of Python: [sub] occurs in [s] as a substring *)
Fixpoint contains (sub s : string) : bool :=
  String.prefix sub s
  || match s with
     | EmptyString => false
     | String _ s' => contains sub s'
     end.

End Str.

(** ** The tables *)

Record Document := {
  title : string;
  notes : string;
  created_at : string;   (* the text the datetime adapter stores,
                            "YYYY-MM-DD HH:MM:SS.ffffff" *)
  archived : bool
}.

Record File := {
  file_id : N;
  file_document_id : string;
  filename : string;
  filesize : N;
  mimetype : string;
  sha256 : string;
  local_path : string
}.

Record Store := {
  Documents : gmap string Document;
  Files : list File;
  Tags : gset (string * string);
  storage : gmap string (list Byte.byte)   (* the files under STORAGE_PATH *)
}.

Definition empty_store : Store :=
  {| Documents := ∅; Files := []; Tags := ∅; storage := ∅ |}.

(** ** The query compiler: [parse_search_query] *)

(** An entry of the Python list [conditions]: the keyword tokens are stored
    as typed, a literal token stores the text
    [(d.title LIKE ? OR d.notes LIKE ?)]. *)
Inductive fragment := KW_AND | KW_OR | LIKE_TERM.

(** The SQL text after [WHERE 1=1], one constructor per piece that the
    function appends, with the number of [?] it contains:
    - [IN_TAGS n]:  [AND d.document_id IN (SELECT document_id FROM Tags
                     WHERE tag = ? OR ... )], n placeholders;
    - [YEAR_IS n]:  [AND (strftime('%Y', d.created_at) = ? OR ... )];
    - [IN_MIMES n]: [AND d.document_id IN (SELECT document_id FROM Files
                     WHERE mimetype LIKE ? OR ... )];
    - [NOT_LIKE]:   [AND (d.title NOT LIKE ? AND d.notes NOT LIKE ?)];
    - [CONDITIONS cs]: [AND] followed by the fragments [cs] joined by
                     spaces.
    The text always ends in [GROUP BY d.document_id ORDER BY d.created_at
    DESC]. *)
Inductive clause :=
| IN_TAGS (n : nat)
| YEAR_IS (n : nat)
| IN_MIMES (n : nat)
| NOT_LIKE
| CONDITIONS (cs : list fragment).

(** The six lists the token loop fills. *)
Record bags := {
  conditions : list fragment;
  params : list string;
  tags : list string;
  years : list string;
  mimes : list string;
  excludes : list string
}.

Definition no_bags : bags :=
  {| conditions := []; params := []; tags := []; years := [];
     mimes := []; excludes := [] |}.

(** One round of the [while] loop (lines 157-171). *)
Definition classify (b : bags) (token : string) : bags :=
  if Str.startswith "tag:" token then
    {| conditions := conditions b; params := params b;
       tags := tags b ++ [Str.drop 4 token]; years := years b;
       mimes := mimes b; excludes := excludes b |}
  else if Str.startswith "year:" token then
    {| conditions := conditions b; params := params b;
       tags := tags b; years := years b ++ [Str.drop 5 token];
       mimes := mimes b; excludes := excludes b |}
  else if Str.startswith "mime:" token then
    {| conditions := conditions b; params := params b;
       tags := tags b; years := years b;
       mimes := mimes b ++ [Str.drop 5 token]; excludes := excludes b |}
  else if Str.startswith "-" token then
    {| conditions := conditions b; params := params b;
       tags := tags b; years := years b;
       mimes := mimes b; excludes := excludes b ++ [Str.drop 1 token] |}
  else if String.eqb token "AND" then
    {| conditions := conditions b ++ [KW_AND]; params := params b;
       tags := tags b; years := years b;
       mimes := mimes b; excludes := excludes b |}
  else if String.eqb token "OR" then
    {| conditions := conditions b ++ [KW_OR]; params := params b;
       tags := tags b; years := years b;
       mimes := mimes b; excludes := excludes b |}
  else
    {| conditions := conditions b ++ [LIKE_TERM];
       params := params b
                 ++ [Str.contains_pattern token; Str.contains_pattern token];
       tags := tags b; years := years b;
       mimes := mimes b; excludes := excludes b |}.

(** [tokens = re.split(r'\s+', query.strip())] *)
Definition tokens (query : string) : list string :=
  Str.re_split_spaces false (Str.strip query).

Definition is_empty {A} (l : list A) : bool :=
  match l with [] => true | _ :: _ => false end.

(** Lines 183-196: each non-empty bag appends its piece of SQL and extends
    [params]. *)
Definition compile (b : bags) : list clause * list string :=
  let sql := [] in
  let ps := params b in
  let '(sql, ps) :=
    if is_empty (tags b) then (sql, ps)
    else (sql ++ [IN_TAGS (length (tags b))], ps ++ tags b) in
  let '(sql, ps) :=
    if is_empty (years b) then (sql, ps)
    else (sql ++ [YEAR_IS (length (years b))], ps ++ years b) in
  let '(sql, ps) :=
    if is_empty (mimes b) then (sql, ps)
    else (sql ++ [IN_MIMES (length (mimes b))],
          ps ++ (Str.contains_pattern <$> mimes b)) in
  let '(sql, ps) :=
    if is_empty (excludes b) then (sql, ps)
    else (sql ++ [NOT_LIKE],
          ps ++ ((Str.contains_pattern <$> excludes b)
                 ++ (Str.contains_pattern <$> excludes b))) in
  let '(sql, ps) :=
    if is_empty (conditions b) then (sql, ps)
    else (sql ++ [CONDITIONS (conditions b)], ps) in
  (sql, ps).

Definition parse_search_query (query : string) : list clause * list string :=
  compile (fold_left classify (tokens query) no_bags).

(** The branch of [classify] a token takes. *)
Inductive kind := TagToken | YearToken | MimeToken | Exclusion | Keyword | Literal.

Definition kind_of (token : string) : kind :=
  if Str.startswith "tag:" token then TagToken
  else if Str.startswith "year:" token then YearToken
  else if Str.startswith "mime:" token then MimeToken
  else if Str.startswith "-" token then Exclusion
  else if String.eqb token "AND" then Keyword
  else if String.eqb token "OR" then Keyword
  else Literal.

(** Appending the lists of two runs of the loop. *)
Definition bags_app (b1 b2 : bags) : bags :=
  {| conditions := conditions b1 ++ conditions b2;
     params := params b1 ++ params b2;
     tags := tags b1 ++ tags b2;
     years := years b1 ++ years b2;
     mimes := mimes b1 ++ mimes b2;
     excludes := excludes b1 ++ excludes b2 |}.

(** ** SQLite running the statement *)

Inductive connective := AND | OR.

(** A term of the WHERE expression, with its placeholders still open. *)
Inductive term :=
| TagTerm (n : nat)
| YearTerm (n : nat)
| MimeTerm (n : nat)
| NotLikeTerm
| LikeTerm.

(** The text [AND f1 f2 ... fn] is an expression only when connectives and
    terms alternate and a term comes last. *)
Fixpoint parse_conditions (fs : list fragment)
  : option (list (connective * term)) :=
  match fs with
  | [] => Some []
  | KW_AND :: LIKE_TERM :: rest =>
      cons (AND, LikeTerm) <$> parse_conditions rest
  | KW_OR :: LIKE_TERM :: rest =>
      cons (OR, LikeTerm) <$> parse_conditions rest
  | _ => None
  end.

Definition parse_clause (c : clause) : option (list (connective * term)) :=
  match c with
  | IN_TAGS n => Some [(AND, TagTerm n)]
  | YEAR_IS n => Some [(AND, YearTerm n)]
  | IN_MIMES n => Some [(AND, MimeTerm n)]
  | NOT_LIKE => Some [(AND, NotLikeTerm)]
  | CONDITIONS cs => parse_conditions (KW_AND :: cs)
  end.

(** Preparing the statement: [None] is a syntax error. *)
Fixpoint prepare (sql : list clause) : option (list (connective * term)) :=
  match sql with
  | [] => Some []
  | c :: sql' =>
      match parse_clause c, prepare sql' with
      | Some ts, Some ts' => Some (ts ++ ts')
      | _, _ => None
      end
  end.

(** A term with its parameters bound. *)
Inductive bound :=
| TagIs (vs : list string)
| YearIs (vs : list string)
| MimeLike (ps : list string)
| NotLike (p_title p_notes : string)
| Like (p_title p_notes : string).

Definition placeholders (t : term) : nat :=
  match t with
  | TagTerm n | YearTerm n | MimeTerm n => n
  | NotLikeTerm | LikeTerm => 2
  end.

Definition bind_term (t : term) (ps : list string) : bound :=
  match t with
  | TagTerm _ => TagIs ps
  | YearTerm _ => YearIs ps
  | MimeTerm _ => MimeLike ps
  | NotLikeTerm => NotLike (nth 0 ps "") (nth 1 ps "")
  | LikeTerm => Like (nth 0 ps "") (nth 1 ps "")
  end.

(** Binding is by position, left to right in the text; [None] when the
    number of parameters differs from the number of placeholders. *)
Fixpoint bind_params (ts : list (connective * term)) (ps : list string)
  : option (list (connective * bound)) :=
  match ts with
  | [] => if is_empty ps then Some [] else None
  | (k, t) :: ts' =>
      let n := placeholders t in
      if (length ps <? n)%nat then None
      else cons (k, bind_term t (take n ps)) <$> bind_params ts' (List.skipn n ps)
  end.

(** A row of the result, as [dict(row)] has it. *)
Record Row := {
  row_document_id : string;
  row_title : string;
  row_notes : string;
  row_created_at : string;
  row_archived : bool;
  row_tags : option string;         (* group_concat(t.tag), NULL if none *)
  row_files : option string;        (* group_concat(f.filename) *)
  row_local_paths : option string   (* group_concat(f.local_path) *)
}.

(** ORDER BY d.created_at DESC compares the stored text. *)
Definition later_or_same (r1 r2 : Row) : Prop :=
  String.leb (row_created_at r2) (row_created_at r1) = true.

Fixpoint insert_desc (r : Row) (rs : list Row) : list Row :=
  match rs with
  | [] => [r]
  | r' :: rs' =>
      if String.leb (row_created_at r') (row_created_at r)
      then r :: rs
      else r' :: insert_desc r rs'
  end.

Definition order_by_created_at_desc (rs : list Row) : list Row :=
  foldr insert_desc [] rs.

Section Engine.

(** [strftime('%Y', text)] of SQLite: the four-digit year of a stored
    timestamp, NULL when the text is not a date. *)
Variable strftime_Y : string -> option string.

Definition holds (s : Store) (id : string) (d : Document) (b : bound) : bool :=
  match b with
  | TagIs vs => existsb (fun v => bool_decide ((id, v) ∈ Tags s)) vs
  | YearIs vs =>
      existsb (fun v => bool_decide (strftime_Y (created_at d) = Some v)) vs
  | MimeLike ps =>
      existsb (fun f => String.eqb (file_document_id f) id
                        && existsb (fun p => Str.like p (mimetype f)) ps)
              (Files s)
  | NotLike p q => negb (Str.like p (title d)) && negb (Str.like q (notes d))
  | Like p q => Str.like p (title d) || Str.like q (notes d)
  end.

(** The value of [acc k1 b1 k2 b2 ...] where AND binds tighter than OR and
    [acc] is the value of the conjunction read so far. *)
Fixpoint where_value (s : Store) (id : string) (d : Document) (acc : bool)
  (bs : list (connective * bound)) : bool :=
  match bs with
  | [] => acc
  | (AND, b) :: bs' => where_value s id d (acc && holds s id d b) bs'
  | (OR, b) :: bs' => acc || where_value s id d (holds s id d b) bs'
  end.

Definition concat_column (l : list string) : option string :=
  if is_empty l then None else Some (Str.join "," l).

(** The group of one document in the two LEFT JOINs: every tag of the
    document meets every file of the document (or one NULL file). *)
Definition make_row (s : Store) (id : string) (d : Document) : Row :=
  let ts := omap (fun p => if String.eqb (fst p) id then Some (snd p) else None)
                 (elements (Tags s)) in
  let fs := filter (fun f => file_document_id f = id) (Files s) in
  let per_tag {A} (l : list A) := if is_empty ts then l else ts ≫= (fun _ => l) in
  {| row_document_id := id;
     row_title := title d;
     row_notes := notes d;
     row_created_at := created_at d;
     row_archived := archived d;
     row_tags := concat_column
                   (ts ≫= (fun t => if is_empty fs then [t] else (fun _ => t) <$> fs));
     row_files := concat_column (per_tag (filename <$> fs));
     row_local_paths := concat_column (per_tag (local_path <$> fs)) |}.

(** [cursor.execute(sql, params)] followed by [fetchall()]. *)
Definition execute (s : Store) (sql : list clause) (ps : list string)
  : result (list Row) :=
  match prepare sql with
  | None => Raise OperationalError
  | Some ts =>
      match bind_params ts ps with
      | None => Raise ProgrammingError
      | Some bs =>
          Ok (order_by_created_at_desc
                ((fun p => make_row s (fst p) (snd p))
                   <$> filter (fun p => where_value s (fst p) (snd p) true bs)
                         (map_to_list (Documents s))))
      end
  end.

Definition search_documents (s : Store) (query : string) : result (list Row) :=
  let '(sql, ps) := parse_search_query query in
  execute s sql ps.

(** What a query without literal terms selects: each non-empty bag of
    [tag:], [year:] and [mime:] values asks for one of its values, a single
    exclusion asks for its absence. *)
Definition selects (s : Store) (b : bags) (id : string) (d : Document) : bool :=
  (is_empty (tags b) || holds s id d (TagIs (tags b)))
  && (is_empty (years b) || holds s id d (YearIs (years b)))
  && (is_empty (mimes b)
      || holds s id d (MimeLike (Str.contains_pattern <$> mimes b)))
  && match excludes b with
     | [e] => holds s id d (NotLike (Str.contains_pattern e)
                                    (Str.contains_pattern e))
     | _ => true
     end.

End Engine.

(** ** Ingestion: [compute_sha256] and [add_document] *)

Definition STORAGE_PATH : string := "document_storage".

(** [os.path.join(a, b)] of [posixpath] *)
Definition os_path_join (a b : string) : string :=
  if Str.startswith "/" b then b
  else if String.eqb a "" || Str.endswith "/" a then (a ++ b)%string
  else (a ++ "/" ++ b)%string.

Definition hex_char (d : N) : ascii :=
  match String.get (N.to_nat d) "0123456789abcdef" with
  | Some c => c
  | None => "0"%char
  end.

(** [hexdigest()] of a digest of [n] hexadecimal digits, the digest being
    read as a number: most significant digit first, lower case. *)
Fixpoint hex_digits (n : nat) (v : N) : string :=
  match n with
  | O => ""
  | S n' => (hex_digits n' (v / 16) ++ String (hex_char (v mod 16)) "")%string
  end.

(** [s.encode()]: UTF-8 of the code points 0..255 *)
Definition encode_char (c : ascii) : list Byte.byte :=
  let n := N_of_ascii c in
  if (n <? 128)%N then [byte_of_ascii c]
  else [byte_of_ascii (ascii_of_N (192 + n / 64));
        byte_of_ascii (ascii_of_N (128 + n mod 64))].

Definition encode (s : string) : list Byte.byte :=
  list_ascii_of_string s ≫= encode_char.

(** What [st.file_uploader] hands over: a name and the uploaded bytes; the
    program reads them through a fresh in-memory stream. *)
Record UploadedFile := {
  name : string;
  content : list Byte.byte
}.

(** A [BytesIO] object: the buffer and the read position. *)
Record stream := {
  buffer : list Byte.byte;
  position : nat
}.

Definition open_upload (f : UploadedFile) : stream :=
  {| buffer := content f; position := 0 |}.

(** [file.read(n)] *)
Definition read (n : nat) (f : stream) : list Byte.byte * stream :=
  let chunk := take n (List.skipn (position f) (buffer f)) in
  (chunk, {| buffer := buffer f; position := position f + length chunk |}).

(** [file.read()] *)
Definition read_all (f : stream) : list Byte.byte * stream :=
  let rest := List.skipn (position f) (buffer f) in
  (rest, {| buffer := buffer f; position := position f + length rest |}).

(** [file.seek(0)] *)
Definition seek0 (f : stream) : stream :=
  {| buffer := buffer f; position := 0 |}.

(** [for chunk in iter(lambda: file.read(size), b""): sha256.update(chunk)]:
    [fed] is what the hash object has been given so far.  The loop stops at
    the first empty chunk; [fuel] bounds the number of rounds. *)
Fixpoint update_chunks (size fuel : nat) (fed : list Byte.byte) (f : stream)
  : list Byte.byte * stream :=
  match fuel with
  | O => (fed, f)
  | S fuel' =>
      let '(chunk, f') := read size f in
      if is_empty chunk then (fed, f')
      else update_chunks size fuel' (fed ++ chunk) f'
  end.

(** [INSERT] into a table with an AUTOINCREMENT key: one more than the
    largest key (no row is ever deleted). *)
Definition next_file_id (fs : list File) : N :=
  (1 + foldr (fun f m => N.max (file_id f) m) 0 fs)%N.

Section Ingestion.

(** [hashlib.md5(b).digest()] and [hashlib.sha256(b).digest()] as numbers,
    and [magic.Magic(mime=True).from_buffer]. *)
Variable hashlib_md5 : list Byte.byte -> N.
Variable hashlib_sha256 : list Byte.byte -> N.
Variable magic_from_buffer : list Byte.byte -> string.

Definition compute_sha256 (file : stream) : string * stream :=
  let '(fed, file) := update_chunks 4096 (S (length (buffer file))) [] file in
  let file := seek0 file in
  (hex_digits 64 (hashlib_sha256 fed), file).

(** Line 112, [now] being [str(datetime.now())]. *)
Definition new_document_id (title now : string) : string :=
  hex_digits 32 (hashlib_md5 (encode (title ++ now)%string)).

(** Line 131 *)
Definition storage_path (document_id filename : string) : string :=
  os_path_join STORAGE_PATH (document_id ++ "_" ++ filename)%string.

(** What one round of the loop over [files] leaves behind: a row of
    [Files] and a file in the storage directory. *)
Definition file_row (document_id : string) (fs : list File)
  (upload : UploadedFile) : File :=
  {| file_id := next_file_id fs;
     file_document_id := document_id;
     filename := name upload;
     filesize := N.of_nat (length (content upload));
     mimetype := magic_from_buffer (take 1024 (content upload));
     sha256 := hex_digits 64 (hashlib_sha256 (content upload));
     local_path := storage_path document_id (name upload) |}.

Definition write_upload (document_id : string)
  (dir : gmap string (list Byte.byte)) (upload : UploadedFile)
  : gmap string (list Byte.byte) :=
  <[storage_path document_id (name upload) := content upload]> dir.

(** The body of the loop over [files] (lines 125-137). *)
Definition store_file (document_id : string) (s : Store) (upload : UploadedFile)
  : Store :=
  let file := open_upload upload in
  let filename := name upload in
  let '(sha256, file) := compute_sha256 file in
  let '(all, file) := read_all file in
  let filesize := N.of_nat (length all) in
  let file := seek0 file in
  let '(head, file) := read 1024 file in
  let mimetype := magic_from_buffer head in
  let file := seek0 file in
  let local_path := storage_path document_id filename in
  (* open(local_path, "wb") and shutil.copyfileobj(file, f) *)
  let '(copied, file) := read_all file in
  {| Documents := Documents s;
     Files := Files s ++
              [{| file_id := next_file_id (Files s);
                  file_document_id := document_id;
                  filename := filename;
                  filesize := filesize;
                  mimetype := mimetype;
                  sha256 := sha256;
                  local_path := local_path |}];
     Tags := Tags s;
     storage := <[local_path := copied]> (storage s) |}.

(** [INSERT OR IGNORE INTO Tags] for a non-empty tag (lines 139-140). *)
Definition store_tag (document_id : string) (s : Store) (tag : string) : Store :=
  if String.eqb tag "" then s
  else {| Documents := Documents s;
          Files := Files s;
          Tags := {[ (document_id, tag) ]} ∪ Tags s;
          storage := storage s |}.

(** [add_document]; [now1] and [now2] are the texts of the two readings of
    the clock.  An exception leaves the tables as they were: nothing is
    committed, and the only statement that can fail runs before any file is
    written. *)
Definition add_document (now1 now2 : string)
  (title notes tags : string) (files : list UploadedFile) (s : Store)
  : result (string * Store) :=
  let document_id := new_document_id title now1 in
  let created_at := now2 in
  let tags := if String.eqb tags "" then []
              else Str.strip <$> Str.split_on "," tags in
  match Documents s !! document_id with
  | Some _ => Raise IntegrityError
  | None =>
      let s := {| Documents :=
                    <[document_id :=
                        {| title := title; notes := notes;
                           created_at := created_at; archived := false |}]>
                      (Documents s);
                  Files := Files s; Tags := Tags s; storage := storage s |} in
      let s := fold_left (store_file document_id) files s in
      let s := fold_left (store_tag document_id) tags s in
      Ok (document_id, s)
  end.

(** The "Add Document" form (lines 248-251):
    [if submit and title and files: add_document(...)]. *)
Definition add_form (submit : bool) (now1 now2 : string)
  (title notes tags : string) (files : list UploadedFile) (s : Store)
  : result Store :=
  if submit && negb (String.eqb title "") && negb (is_empty files)
  then map_result snd (add_document now1 now2 title notes tags files s)
  else Ok s.

End Ingestion.

(** ** Archiving: [toggle_archive] *)

Definition set_archived (archive : bool) (d : Document) : Document :=
  {| title := title d; notes := notes d; created_at := created_at d;
     archived := archive |}.

(** [UPDATE Documents SET archived = ? WHERE document_id = ?] *)
Definition toggle_archive (document_id : string) (archive : bool) (s : Store)
  : result Store :=
  Ok {| Documents := alter (set_archived archive) document_id (Documents s);
        Files := Files s; Tags := Tags s; storage := storage s |}.

(** ** Views of a result *)

(** The document a row shows: its key and its columns. *)
Definition row_document (r : Row) : string * Document :=
  (row_document_id r,
   {| title := row_title r; notes := row_notes r;
      created_at := row_created_at r; archived := row_archived r |}).

Definition with_row_archived (flag : string -> bool) (r : Row) : Row :=
  {| row_document_id := row_document_id r;
     row_title := row_title r;
     row_notes := row_notes r;
     row_created_at := row_created_at r;
     row_archived := flag (row_document_id r);
     row_tags := row_tags r;
     row_files := row_files r;
     row_local_paths := row_local_paths r |}.

(** Two outcomes of a search that differ at most in the column [archived]
    and in the order of rows. *)
Definition same_up_to_archived (flag : string -> bool)
  (before after : result (list Row)) : Prop :=
  match before, after with
  | Ok rows, Ok rows' => rows' ≡ₚ with_row_archived flag <$> rows
  | Raise e, Raise e' => e = e'
  | _, _ => False
  end.

(** ** Views of a query *)

Global Instance kind_eq_dec : EqDecision kind.
Proof. solve_decision. Defined.

(** The values the loop collects from the tokens of one kind: the tokens of
    that kind, in order, without their prefix of [n] characters. *)
Definition values_of (k : kind) (n : nat) (query : string) : list string :=
  Str.drop n <$> filter (fun token => kind_of token = k) (tokens query).

(** A string without white space, and a string of white space only. *)
Definition no_space (w : string) : Prop :=
  Forall (fun c => Str.isspace c = false) (list_ascii_of_string w).

Definition blank (q : string) : Prop :=
  Forall (fun c => Str.isspace c = true) (list_ascii_of_string q).

(** ** The Documents page *)

(** Lines 258-260: without "Show archived documents" the page keeps the
    rows whose column [archived] is 0. *)
Definition visible_results (show_archived : bool) (results : list Row)
  : list Row :=
  if show_archived then results
  else filter (fun r => row_archived r = false) results.

Global Instance fragment_eq_dec : EqDecision fragment.
Proof. solve_decision. Defined.

(** The terms that the four bags contribute to the WHERE expression, in the
    order of the text. *)
Definition group_terms (b : bags) : list (connective * term) :=
  (if is_empty (tags b) then [] else [(AND, TagTerm (length (tags b)))])
  ++ (if is_empty (years b) then [] else [(AND, YearTerm (length (years b)))])
  ++ (if is_empty (mimes b) then [] else [(AND, MimeTerm (length (mimes b)))])
  ++ (if is_empty (excludes b) then [] else [(AND, NotLikeTerm)]).

(** The number of placeholders of a prepared statement. *)
Definition placeholder_count (ts : list (connective * term)) : nat :=
  sum_list_with (fun p => placeholders p.2) ts.

(** The number of tokens of one kind in a query. *)
Definition count_kind (k : kind) (query : string) : nat :=
  length (filter (fun token => kind_of token = k) (tokens query)).

(** The rows of a statement whose parameters are bound. *)
Definition answers (strftime_Y : string -> option string) (s : Store)
  (bs : list (connective * bound)) : list Row :=
  order_by_created_at_desc
    ((fun p => make_row s p.1 p.2)
       <$> filter (fun p => where_value strftime_Y s p.1 p.2 true bs)
             (map_to_list (Documents s))).

(** What a literal term asks of a document:
    [(d.title LIKE '%t%' OR d.notes LIKE '%t%')]. *)
Definition matches (t : string) (d : Document) : Prop :=
  Str.like (Str.contains_pattern t) (title d) = true
  \/ Str.like (Str.contains_pattern t) (notes d) = true.

(** ** The Tags page *)

(** [SELECT tag, COUNT( * ) FROM Tags GROUP BY tag] (line 287): every row of
    [Tags] adds one to the count of its tag. *)
Definition count_row (row : string * string) (counts : gmap string nat)
  : gmap string nat :=
  <[row.2 := S (default 0 (counts !! row.2))]> counts.

Definition tag_counts (s : Store) : gmap string nat :=
  set_fold count_row ∅ (Tags s).

(** The rows of [Tags] with one tag. *)
Definition rows_with_tag (tag : string) (s : Store) : gset (string * string) :=
  filter (fun row => row.2 = tag) (Tags s).

(** ** Invariants of the store *)

(** Every row of [Tags] and of [Files] names a stored document (SQLite does
    not enforce the FOREIGN KEY clauses unless asked to). *)
Definition referential_integrity (s : Store) : Prop :=
  (forall d t, (d, t) ∈ Tags s -> is_Some (Documents s !! d))
  /\ (forall f, f ∈ Files s -> is_Some (Documents s !! file_document_id f)).

(** Every row of [Files] points to a file in the storage directory. *)
Definition stored_files_exist (s : Store) : Prop :=
  forall f, f ∈ Files s -> is_Some (storage s !! local_path f).

(** ** Sample data for the closed examples *)

(** A stand-in for SQLite's date function on the timestamps that
    [add_document] stores: the first four characters. *)
Definition year_prefix (created : string) : option string :=
  Some (String.substring 0 4 created).

(** Stand-ins for the digests and the MIME sniffer. *)
Definition toy_digest (b : list Byte.byte) : N := N.of_nat (length b).
Definition toy_magic (b : list Byte.byte) : string :=
  if is_empty b then "application/x-empty" else "application/octet-stream".

Definition draft_doc : Document :=
  {| title := "draft"; notes := "";
     created_at := "2023-05-01 10:00:00.000001"; archived := false |}.

Definition plan_doc : Document :=
  {| title := "plan"; notes := "budget";
     created_at := "2024-02-03 09:30:00.000002"; archived := true |}.

Definition two_docs : Store :=
  {| Documents := <["d1" := draft_doc]> (<["d2" := plan_doc]> ∅);
     Files := [];
     Tags := {[ ("d1", "work"); ("d2", "personal") ]};
     storage := ∅ |}.

(** The same store after [toggle_archive "d1" True]. *)
Definition two_docs_d1_archived : Store :=
  {| Documents := alter (set_archived true) "d1" (Documents two_docs);
     Files := Files two_docs;
     Tags := Tags two_docs;
     storage := storage two_docs |}.

(** One document whose tag is the text of a LIKE pattern. *)
Definition pattern_tagged : Store :=
  {| Documents :=
       {[ "d1" := {| title := "x"; notes := "";
                     created_at := "2023-05-01 10:00:00.000001";
                     archived := false |} ]};
     Files := [];
     Tags := {[ ("d1", "%x%") ]};
     storage := ∅ |}.

Definition noon : string := "2024-06-01 12:00:00.000000".

Definition report_pdf : UploadedFile :=
  {| name := "report.pdf";
     content := [Byte.x25; Byte.x50; Byte.x44; Byte.x46] |}.

(** A second upload with the same name and other bytes. *)
Definition report_pdf_again : UploadedFile :=
  {| name := "report.pdf";
     content := [Byte.x25; Byte.x50; Byte.x44; Byte.x46; Byte.x2d; Byte.x32] |}.

(** The rows of an answer, and the outcome of adding a report to
    [two_docs]. *)
Definition rows_of (outcome : result (list Row)) : list Row :=
  match outcome with
  | Ok rows => rows
  | Raise _ => []
  end.

Definition with_report : string * Store :=
  match add_document toy_digest toy_digest toy_magic noon noon
          "Report" "yearly" "work, tax ,,work" [report_pdf] two_docs with
  | Ok added => added
  | Raise _ => ("", two_docs)
  end.

Definition rows_of_store (outcome : result Store) : Store :=
  match outcome with
  | Ok s => s
  | Raise _ => empty_store
  end.

(** * Properties *)

(** ** Ordering of the result *)

Lemma insert_desc_perm r rs : insert_desc r rs ≡ₚ r :: rs.
Proof.
  induction rs as [|r' rs IH]; simpl; [done|].
  destruct (String.leb _ _); [done|].
  rewrite IH. apply Permutation_swap.
Qed.

Lemma order_by_created_at_desc_perm rs : order_by_created_at_desc rs ≡ₚ rs.
Proof.
  induction rs as [|r rs IH]; simpl; [done|].
  rewrite insert_desc_perm. by rewrite IH.
Qed.

Lemma insert_desc_sorted r rs :
  Sorted later_or_same rs -> Sorted later_or_same (insert_desc r rs).
Proof.
  induction 1 as [|r' rs Hs IH Hhd]; simpl.
  - by repeat constructor.
  - destruct (String.leb (row_created_at r') (row_created_at r)) eqn:Hle.
    + constructor; [by constructor|]. by constructor.
    + constructor; [done|].
      assert (later_or_same r' r) as Hr.
      { unfold later_or_same.
        destruct (String.leb_total (row_created_at r') (row_created_at r));
          congruence. }
      destruct rs as [|r'' rs]; simpl; [by constructor|].
      destruct (String.leb (row_created_at r'') (row_created_at r));
        constructor; [done|].
      by inversion Hhd.
Qed.

Lemma order_by_created_at_desc_sorted rs :
  Sorted later_or_same (order_by_created_at_desc rs).
Proof.
  induction rs as [|r rs IH]; simpl; [constructor|].
  by apply insert_desc_sorted.
Qed.

(** ** LIKE *)

Lemma like_percent s : Str.like "%" s = true.
Proof. induction s as [|c s IH]; [done|]. simpl in *. exact IH. Qed.

Lemma like_percent_percent s : Str.like "%%" s = true.
Proof.
  destruct s as [|c s]; [done|].
  change (Str.like "%" (String c s) || Str.like "%%" s = true).
  by rewrite like_percent.
Qed.

(** ** Archiving *)

(** C10: for a [document_id] that is not in [Documents], [toggle_archive]
    raises nothing and returns the store as it was: every table and the
    storage directory are unchanged. *)
Theorem toggle_archive_unknown_id (document_id : string) (archive : bool)
  (s : Store) :
  Documents s !! document_id = None ->
  toggle_archive document_id archive s = Ok s.
Proof.
  intros Hnone. unfold toggle_archive.
  rewrite alter_id' by done. by destruct s.
Qed.

Lemma toggle_archive_unknown_id_witness :
  Documents two_docs !! "d3" = None
  /\ toggle_archive "d3" true two_docs = Ok two_docs.
Proof.
  split; [by vm_compute|].
  apply (toggle_archive_unknown_id "d3" true two_docs). by vm_compute.
Defined.

(** C6: for a stored document, archiving with the opposite flag and then
    with the original flag gives back the store as it was; and one call of
    [toggle_archive] leaves [Files], [Tags], the storage directory and every
    other document as they were and changes, in the document itself, only
    the column [archived]. *)
Theorem toggle_archive_twice_restores (document_id : string) (s : Store)
  (d : Document) :
  Documents s !! document_id = Some d ->
  bind_result (toggle_archive document_id (negb (archived d)) s)
              (toggle_archive document_id (archived d)) = Ok s
  /\ forall flag : bool, exists s' d',
       toggle_archive document_id flag s = Ok s'
       /\ Files s' = Files s /\ Tags s' = Tags s /\ storage s' = storage s
       /\ (forall other, other <> document_id ->
             Documents s' !! other = Documents s !! other)
       /\ Documents s' !! document_id = Some d'
       /\ title d' = title d /\ notes d' = notes d
       /\ created_at d' = created_at d /\ archived d' = flag.
Proof.
  intros Hd. split.
  - unfold toggle_archive; simpl. rewrite alter_alter_eq.
    rewrite alter_id; [by destruct s|].
    intros d0 Hd0. assert (d0 = d) as -> by congruence.
    by destruct d.
  - intros flag. eexists _, (set_archived flag d).
    split; [reflexivity|]. simpl.
    repeat split; try done.
    + intros other Hne. by rewrite lookup_alter_ne.
    + by rewrite lookup_alter_eq, Hd.
Qed.

Lemma toggle_archive_twice_restores_witness :
  bind_result (toggle_archive "d2" (negb (archived plan_doc)) two_docs)
              (toggle_archive "d2" (archived plan_doc)) = Ok two_docs.
Proof.
  apply (toggle_archive_twice_restores "d2" two_docs plan_doc).
  by vm_compute.
Defined.

(** ** The token loop *)

Lemma bags_app_assoc b1 b2 b3 :
  bags_app (bags_app b1 b2) b3 = bags_app b1 (bags_app b2 b3).
Proof. unfold bags_app; simpl. by rewrite <- !app_assoc. Qed.

Lemma bags_app_no_bags_r b : bags_app b no_bags = b.
Proof. destruct b. unfold bags_app; simpl. by rewrite !app_nil_r. Qed.

Lemma classify_app b token :
  classify b token = bags_app b (classify no_bags token).
Proof.
  unfold classify, bags_app.
  repeat match goal with
         | |- context [if ?c then _ else _] => destruct c
         end; simpl; by rewrite ?app_nil_r.
Qed.

Lemma fold_classify_app l b :
  fold_left classify l b = bags_app b (fold_left classify l no_bags).
Proof.
  revert b. induction l as [|token l IH]; intros b; simpl.
  - by rewrite bags_app_no_bags_r.
  - rewrite (IH (classify b token)), (IH (classify no_bags token)).
    by rewrite (classify_app b), bags_app_assoc.
Qed.

Lemma fold_classify_insert l1 token l2 :
  fold_left classify (l1 ++ token :: l2) no_bags =
  bags_app (fold_left classify l1 no_bags)
    (bags_app (classify no_bags token) (fold_left classify l2 no_bags)).
Proof.
  rewrite fold_left_app. simpl.
  rewrite fold_classify_app, (classify_app (fold_left _ _ _)).
  by rewrite bags_app_assoc.
Qed.

Lemma fold_classify_concat l1 l2 :
  fold_left classify (l1 ++ l2) no_bags =
  bags_app (fold_left classify l1 no_bags) (fold_left classify l2 no_bags).
Proof. rewrite fold_left_app. apply fold_classify_app. Qed.

(** The lists one token adds, by the kind of the token. *)
Lemma classify_by_kind token :
  classify no_bags token =
  match kind_of token with
  | TagToken =>
      {| conditions := []; params := []; tags := [Str.drop 4 token];
         years := []; mimes := []; excludes := [] |}
  | YearToken =>
      {| conditions := []; params := []; tags := [];
         years := [Str.drop 5 token]; mimes := []; excludes := [] |}
  | MimeToken =>
      {| conditions := []; params := []; tags := []; years := [];
         mimes := [Str.drop 5 token]; excludes := [] |}
  | Exclusion =>
      {| conditions := []; params := []; tags := []; years := [];
         mimes := []; excludes := [Str.drop 1 token] |}
  | Keyword =>
      {| conditions := [if String.eqb token "AND" then KW_AND else KW_OR];
         params := []; tags := []; years := []; mimes := []; excludes := [] |}
  | Literal =>
      {| conditions := [LIKE_TERM];
         params := [Str.contains_pattern token; Str.contains_pattern token];
         tags := []; years := []; mimes := []; excludes := [] |}
  end.
Proof.
  unfold classify, kind_of.
  repeat match goal with
         | |- context [if ?c then _ else _] => destruct c eqn:?
         end; try reflexivity; congruence.
Qed.

(** Without a literal token no parameter is collected before the bags are
    compiled, and [conditions] holds keywords only. *)
Lemma no_literal_bags l :
  Forall (fun token => kind_of token <> Literal) l ->
  params (fold_left classify l no_bags) = []
  /\ Forall (fun f => f <> LIKE_TERM) (conditions (fold_left classify l no_bags)).
Proof.
  induction 1 as [|token l Hk _ [IHp IHc]]; simpl; [by split|].
  rewrite fold_classify_app, classify_by_kind.
  destruct (kind_of token); try done; simpl; split; try done.
  constructor; [by destruct (String.eqb _ _)|done].
Qed.

(** ** Preparing and binding *)

Lemma bind_params_group k t ts (g rest : list string) :
  placeholders t = length g ->
  bind_params ((k, t) :: ts) (g ++ rest) =
  cons (k, bind_term t g) <$> bind_params ts rest.
Proof.
  intros Hn. simpl. rewrite Hn, length_app.
  destruct (Nat.ltb_spec (length g + length rest) (length g)) as [Hlt|_]; [lia|].
  by rewrite take_app_length, drop_app_length.
Qed.

Lemma bind_params_last k t (g : list string) :
  placeholders t = length g ->
  bind_params [(k, t)] g = Some [(k, bind_term t g)].
Proof.
  intros Hn. rewrite <- (app_nil_r g) at 1.
  by rewrite bind_params_group.
Qed.

Lemma parse_conditions_keyword_first k f fs :
  f <> LIKE_TERM -> parse_conditions (k :: f :: fs) = None.
Proof. intros Hf. by destruct k, f. Qed.

Section SearchProperties.

Variable strftime_Y : string -> option string.

Lemma execute_keywords_only s b :
  conditions b <> [] ->
  Forall (fun f => f <> LIKE_TERM) (conditions b) ->
  execute strftime_Y s (compile b).1 (compile b).2 = Raise OperationalError.
Proof.
  intros Hne Hkw. unfold compile, execute.
  destruct (conditions b) as [|f fs]; [done|].
  apply Forall_cons in Hkw as [Hf _].
  destruct (is_empty (tags b)), (is_empty (years b)), (is_empty (mimes b)),
    (is_empty (excludes b)), f; done.
Qed.

Lemma execute_no_conditions s b :
  params b = [] -> conditions b = [] ->
  execute strftime_Y s (compile b).1 (compile b).2 =
  match excludes b with
  | _ :: _ :: _ => Raise ProgrammingError
  | _ =>
      Ok (order_by_created_at_desc
            ((fun p => make_row s p.1 p.2)
               <$> filter (fun p => selects strftime_Y s b p.1 p.2)
                     (map_to_list (Documents s))))
  end.
Proof.
  intros Hp Hc. unfold compile, selects. rewrite Hp, Hc.
  destruct (excludes b) as [|e [|e' es]] eqn:He;
    destruct (is_empty (tags b)) eqn:Ht, (is_empty (years b)) eqn:Hy,
      (is_empty (mimes b)) eqn:Hm;
    cbn [is_empty app fst snd fmap list_fmap]; unfold execute;
    cbn [prepare parse_clause app].
  all: rewrite <- ?app_assoc.
  all: rewrite ?bind_params_group by (cbn [placeholders]; by rewrite ?length_fmap).
  all: try rewrite bind_params_last by (cbn [placeholders]; by rewrite ?length_fmap).
  all: try (destruct es; done).
  all: cbn [fmap option_fmap option_map bind_params is_empty].
  all: do 3 f_equal; apply list_filter_iff; intros [id d];
    cbn [where_value orb andb fst snd bind_term nth];
    by rewrite ?andb_true_r.
Qed.

Lemma row_document_make_row s id d : row_document (make_row s id d) = (id, d).
Proof. by destruct d. Qed.

Lemma filter_everything {A} (P : A -> Prop) `{forall x, Decision (P x)}
  (l : list A) :
  (forall x, P x) -> filter P l = l.
Proof.
  intros HP. induction l as [|x l IH]; [done|].
  by rewrite filter_cons_True, IH.
Qed.

(** C4: the empty query raises nothing and returns every document of
    [Documents], each once, in descending order of [created_at]. *)
Theorem empty_query_returns_all (s : Store) :
  exists rows,
    search_documents strftime_Y s "" = Ok rows
    /\ row_document <$> rows ≡ₚ map_to_list (Documents s)
    /\ Sorted later_or_same rows.
Proof.
  eexists. split; [|split].
  - unfold search_documents.
    change (parse_search_query "") with ([CONDITIONS [LIKE_TERM]], ["%%"; "%%"]).
    unfold execute. cbn [prepare parse_clause parse_conditions fmap option_fmap
                           option_map app bind_params placeholders length Nat.ltb
                           Nat.leb take List.skipn is_empty bind_term nth].
    reflexivity.
  - rewrite order_by_created_at_desc_perm.
    rewrite filter_everything.
    + rewrite <- list_fmap_compose.
      rewrite (list_fmap_ext _ id (map_to_list (Documents s))).
      * by rewrite list_fmap_id.
      * intros i [id d] _. apply row_document_make_row.
    + intros [id d]. cbn [where_value holds fst snd andb].
      by rewrite like_percent_percent.
  - apply order_by_created_at_desc_sorted.
Qed.

(** ** Queries of [tag:] tokens *)

Lemma fold_classify_tag_tokens values :
  fold_left classify (String.append "tag:" <$> values) no_bags =
  {| conditions := []; params := []; tags := values; years := [];
     mimes := []; excludes := [] |}.
Proof.
  induction values as [|v values IH]; [done|].
  cbn [fmap list_fmap fold_left]. rewrite fold_classify_app.
  change (list_fmap _ _ (String.append "tag:") values)
    with (String.append "tag:" <$> values).
  rewrite IH. by destruct v.
Qed.

Lemma existsb_elem_of {A} (f : A -> bool) (l : list A) :
  existsb f l = true <-> exists x, x ∈ l /\ f x = true.
Proof.
  rewrite existsb_exists. setoid_rewrite list_elem_of_In. done.
Qed.

(** C3: a query made of [tag:] tokens only raises nothing and returns, once
    each, exactly the documents that carry at least one of the listed tag
    values. *)
Theorem tag_tokens_return_union (s : Store) (query : string)
  (values : list string) :
  values <> [] ->
  tokens query = String.append "tag:" <$> values ->
  exists rows,
    search_documents strftime_Y s query = Ok rows
    /\ NoDup (row_document_id <$> rows)
    /\ forall id,
         (exists r, r ∈ rows /\ row_document_id r = id)
         <-> (is_Some (Documents s !! id)
              /\ exists v, v ∈ values /\ (id, v) ∈ Tags s).
Proof.
  intros Hne Htok.
  pose proof (execute_no_conditions s
                (fold_left classify (tokens query) no_bags)) as Hex.
  rewrite Htok, fold_classify_tag_tokens in Hex. cbn [excludes] in Hex.
  specialize (Hex eq_refl eq_refl).
  eexists. split; [|split].
  - unfold search_documents, parse_search_query.
    rewrite Htok, fold_classify_tag_tokens.
    destruct (compile _) as [sql ps]. exact Hex.
  - rewrite order_by_created_at_desc_perm, <- list_fmap_compose.
    rewrite (list_fmap_ext _ fst) by done.
    apply (sublist_NoDup _ ((map_to_list (Documents s)).*1));
      [apply NoDup_fst_map_to_list|].
    apply fmap_sublist, sublist_filter.
  - intros id. setoid_rewrite order_by_created_at_desc_perm.
    setoid_rewrite list_elem_of_fmap. setoid_rewrite list_elem_of_filter.
    unfold selects; cbn [tags years mimes excludes is_empty holds orb].
    destruct values as [|v0 values']; [done|]. cbn [is_empty orb].
    split.
    + intros (r & ([id' d] & -> & Hsel & Hin) & <-). cbn [fst snd] in *.
      apply elem_of_map_to_list in Hin. split; [by eexists|].
      rewrite !andb_true_r in Hsel.
      apply Is_true_true, existsb_elem_of in Hsel as (v & Hv & Htag).
      exists v. split; [done|]. by apply bool_decide_eq_true in Htag.
    + intros ([d Hd] & v & Hv & Htag).
      exists (make_row s id d). split; [|done].
      exists (id, d). split; [done|]. split; [|by apply elem_of_map_to_list].
      cbn [fst snd]. rewrite !andb_true_r.
      apply Is_true_true, existsb_elem_of. exists v. split; [done|].
      by apply bool_decide_eq_true.
Qed.

(** ** The archived flag *)

Lemma holds_ignores_archived s s' id d a b :
  Files s' = Files s -> Tags s' = Tags s ->
  holds strftime_Y s' id (set_archived a d) b = holds strftime_Y s id d b.
Proof. intros HF HT. destruct b; simpl; by rewrite ?HF, ?HT. Qed.

Lemma where_value_ignores_archived s s' id d a acc bs :
  Files s' = Files s -> Tags s' = Tags s ->
  where_value strftime_Y s' id (set_archived a d) acc bs =
  where_value strftime_Y s id d acc bs.
Proof.
  intros HF HT. revert acc.
  induction bs as [|[[] b] bs IH]; intros acc; simpl; [done|..];
    by rewrite IH, (holds_ignores_archived s s').
Qed.

Lemma make_row_set_archived s s' flag id d :
  Files s' = Files s -> Tags s' = Tags s ->
  make_row s' id (set_archived (flag id) d) =
  with_row_archived flag (make_row s id d).
Proof. intros HF HT. unfold make_row, with_row_archived. simpl. by rewrite HF, HT. Qed.

Lemma map_to_list_reflag (flag : string -> bool) (m m' : gmap string Document) :
  (forall id, m' !! id = set_archived (flag id) <$> m !! id) ->
  map_to_list m' ≡ₚ
  (fun p => (p.1, set_archived (flag p.1) p.2)) <$> map_to_list m.
Proof.
  intros Hm. apply NoDup_Permutation.
  - apply NoDup_map_to_list.
  - apply (NoDup_fmap_1 fst). rewrite <- list_fmap_compose.
    rewrite (list_fmap_ext _ fst) by done. apply NoDup_fst_map_to_list.
  - intros [id d']. rewrite elem_of_map_to_list, Hm, list_elem_of_fmap. split.
    + destruct (m !! id) as [d|] eqn:Hd; [|done]. intros [= <-].
      exists (id, d). split; [done|]. by apply elem_of_map_to_list.
    + intros ([id0 d] & [= -> ->] & Hin). apply elem_of_map_to_list in Hin.
      simpl. by rewrite Hin.
Qed.

(** C9: two stores that differ only in the column [archived] give the same
    outcome for every query: the same exception, or the same rows up to that
    column (and up to the order of rows).  The flag decides nothing. *)
Theorem search_ignores_archived (s s' : Store) (flag : string -> bool)
  (query : string) :
  Files s' = Files s -> Tags s' = Tags s ->
  (forall id, Documents s' !! id = set_archived (flag id) <$> Documents s !! id) ->
  same_up_to_archived flag (search_documents strftime_Y s query)
                           (search_documents strftime_Y s' query).
Proof.
  intros HF HT HD. unfold search_documents.
  destruct (parse_search_query query) as [sql ps]. unfold execute.
  destruct (prepare sql) as [ts|]; [|done].
  destruct (bind_params ts ps) as [bs|]; [|done].
  unfold same_up_to_archived.
  rewrite !order_by_created_at_desc_perm.
  rewrite (map_to_list_reflag flag _ _ HD).
  rewrite <- !list_fmap_compose.
  induction (map_to_list (Documents s)) as [|[id d] l IH]; [done|].
  cbn [fmap list_fmap]. rewrite !filter_cons. cbn [fst snd].
  rewrite (where_value_ignores_archived s s') by done.
  destruct (decide _); [|exact IH].
  cbn [fmap list_fmap compose fst snd].
  rewrite (make_row_set_archived s s') by done.
  by apply Permutation_skip.
Qed.

(** ** Repeated tokens *)

Lemma existsb_same_elements {A} (f : A -> bool) (l l' : list A) :
  (forall x, x ∈ l <-> x ∈ l') -> existsb f l = existsb f l'.
Proof.
  intros Hl. apply eq_true_iff_eq. rewrite !existsb_elem_of.
  by setoid_rewrite Hl.
Qed.

Lemma existsb_pointwise {A} (f g : A -> bool) (l : list A) :
  (forall x, f x = g x) -> existsb f l = existsb g l.
Proof. intros Hfg. induction l as [|x l IH]; simpl; by rewrite ?Hfg, ?IH. Qed.

Lemma is_empty_same_elements {A} (l l' : list A) :
  (forall x, x ∈ l <-> x ∈ l') -> is_empty l = is_empty l'.
Proof.
  intros Hl. destruct l as [|x l], l' as [|x' l']; try done.
  - exfalso. apply (not_elem_of_nil x'), Hl. by left.
  - exfalso. apply (not_elem_of_nil x), Hl. by left.
Qed.

Lemma selects_same_elements s b b' id d :
  (forall x, x ∈ tags b <-> x ∈ tags b') ->
  (forall x, x ∈ years b <-> x ∈ years b') ->
  (forall x, x ∈ mimes b <-> x ∈ mimes b') ->
  excludes b = excludes b' ->
  selects strftime_Y s b id d = selects strftime_Y s b' id d.
Proof.
  intros Ht Hy Hm He. unfold selects, holds. rewrite He.
  rewrite (is_empty_same_elements _ _ Ht), (is_empty_same_elements _ _ Hy),
    (is_empty_same_elements _ _ Hm).
  rewrite (existsb_same_elements _ _ _ Ht), (existsb_same_elements _ _ _ Hy).
  do 3 f_equal. apply existsb_pointwise. intros f. f_equal.
  apply existsb_same_elements. intros p.
  rewrite !list_elem_of_fmap. by setoid_rewrite Hm.
Qed.

Lemma elem_of_repeated {A} (x v : A) (l1 l2 : list A) :
  v ∈ l1 ++ l2 -> x ∈ l1 ++ v :: l2 <-> x ∈ l1 ++ l2.
Proof.
  rewrite !elem_of_app, elem_of_cons. intros Hv. split; [|tauto].
  intros [?|[->|?]]; tauto.
Qed.

(** The outcome of a search is a function of the compiled bags. *)
Lemma search_documents_bags s query :
  search_documents strftime_Y s query =
  let b := fold_left classify (tokens query) no_bags in
  execute strftime_Y s (compile b).1 (compile b).2.
Proof.
  unfold search_documents, parse_search_query. by destruct (compile _).
Qed.

(** C5 (amended): in a query without literal terms, a [tag:], [year:] or
    [mime:] token that occurs in the query can be repeated, at any place,
    without changing the outcome of the search. *)
Theorem repeated_group_token_idempotent (s : Store) (query query' : string)
  (before after : list string) (token : string) :
  tokens query = before ++ after ->
  tokens query' = before ++ token :: after ->
  token ∈ before ++ after ->
  kind_of token = TagToken \/ kind_of token = YearToken
    \/ kind_of token = MimeToken ->
  Forall (fun t => kind_of t <> Literal) (before ++ after) ->
  search_documents strftime_Y s query' = search_documents strftime_Y s query.
Proof.
  intros Hq Hq' Hin Hkind Hlit.
  rewrite !search_documents_bags, Hq, Hq'. cbn zeta.
  assert (Forall (fun t => kind_of t <> Literal) (before ++ token :: after))
    as Hlit'.
  { apply Forall_app in Hlit as [H1 H2]. apply Forall_app. split; [done|].
    constructor; [|done]. destruct Hkind as [->|[->| ->]]; done. }
  apply no_literal_bags in Hlit as [Hp Hc], Hlit' as [Hp' Hc'].
  apply list_elem_of_split in Hin as (l1 & l2 & Hsplit).
  set (b := fold_left classify (before ++ after) no_bags) in *.
  set (b' := fold_left classify (before ++ token :: after) no_bags) in *.
  assert (conditions b' = conditions b /\ excludes b' = excludes b
          /\ (forall x, x ∈ tags b' <-> x ∈ tags b)
          /\ (forall x, x ∈ years b' <-> x ∈ years b)
          /\ (forall x, x ∈ mimes b' <-> x ∈ mimes b)) as (Hcs & Hes & Ht & Hy & Hm).
  { assert (match kind_of token with
            | TagToken => Str.drop 4 token ∈ tags b
            | YearToken => Str.drop 5 token ∈ years b
            | MimeToken => Str.drop 5 token ∈ mimes b
            | _ => True
            end) as Hv.
    { unfold b. rewrite Hsplit, fold_classify_insert, classify_by_kind.
      destruct (kind_of token); cbn [bags_app tags years mimes]; try done;
        rewrite !elem_of_app, elem_of_cons; tauto. }
    unfold b, b' in *. clear b b'.
    rewrite fold_classify_insert, fold_classify_concat in *.
    rewrite classify_by_kind.
    destruct Hkind as [Hk|[Hk|Hk]]; rewrite Hk in *;
      cbn [bags_app conditions excludes tags years mimes app] in *;
      (split; [done|]); (split; [done|]);
      (split; [|split]); intros x; try done; by apply elem_of_repeated. }
  destruct (conditions b) as [|f fs] eqn:Hcb.
  - rewrite !execute_no_conditions by congruence.
    rewrite (list_filter_iff (fun p => selects strftime_Y s b' p.1 p.2)
               (fun p => selects strftime_Y s b p.1 p.2)).
    + by rewrite Hes.
    + intros [id d]. by rewrite (selects_same_elements s b' b).
  - rewrite !execute_keywords_only; congruence.
Qed.

End SearchProperties.

(** * Ingestion *)

(** ** Paths *)

Lemma append_cons c (a b : string) :
  (String c a ++ b)%string = String c (a ++ b)%string.
Proof. done. Qed.

Lemma length_append (a b : string) :
  String.length (a ++ b)%string = String.length a + String.length b.
Proof.
  induction a as [|c a IH]; [done|]. rewrite append_cons. simpl. by rewrite IH.
Qed.

Lemma length_hex_digits n v : String.length (hex_digits n v) = n.
Proof.
  revert v. induction n as [|n IH]; intros v; [done|].
  cbn [hex_digits]. rewrite length_append, IH. simpl. lia.
Qed.

Lemma append_same_length_head (a1 a2 b1 b2 : string) :
  String.length a1 = String.length a2 ->
  (a1 ++ b1 = a2 ++ b2)%string -> a1 = a2.
Proof.
  revert a2. induction a1 as [|c a1 IH]; intros [|c2 a2]; try done.
  rewrite !append_cons. simpl. intros [= Hlen] [= -> Heq]. f_equal. by apply IH.
Qed.

Lemma append_cancel_head (a b1 b2 : string) :
  (a ++ b1 = a ++ b2)%string -> b1 = b2.
Proof.
  induction a as [|c a IH]; [done|]. rewrite !append_cons.
  intros [= H]. by apply IH.
Qed.

Lemma os_path_join_storage b :
  os_path_join STORAGE_PATH b =
  if Str.startswith "/" b then b else ("document_storage/" ++ b)%string.
Proof. done. Qed.

Lemma os_path_join_storage_inj b1 b2 :
  os_path_join STORAGE_PATH b1 = os_path_join STORAGE_PATH b2 -> b1 = b2.
Proof.
  rewrite !os_path_join_storage.
  destruct (Str.startswith "/" b1) eqn:H1, (Str.startswith "/" b2) eqn:H2;
    try done.
  - intros ->. by vm_compute in H1.
  - intros <-. by vm_compute in H2.
  - apply append_cancel_head.
Qed.

Section IngestionProperties.

Variable hashlib_md5 : list Byte.byte -> N.
Variable hashlib_sha256 : list Byte.byte -> N.
Variable magic_from_buffer : list Byte.byte -> string.

Lemma storage_path_inj_filename id f1 f2 :
  storage_path id f1 = storage_path id f2 -> f1 = f2.
Proof.
  unfold storage_path. intros H%os_path_join_storage_inj.
  apply append_cancel_head in H. by injection H.
Qed.

(** C7: the storage path is the function [storage_path] of the document id
    and the file name, and the paths of two documents with different ids
    differ whatever the two file names are. *)
Theorem storage_paths_of_documents_distinct
  (title1 now1 title2 now2 filename1 filename2 : string) :
  new_document_id hashlib_md5 title1 now1 <> new_document_id hashlib_md5 title2 now2 ->
  storage_path (new_document_id hashlib_md5 title1 now1) filename1
  <> storage_path (new_document_id hashlib_md5 title2 now2) filename2.
Proof.
  intros Hne Heq. apply Hne. unfold storage_path in Heq.
  apply os_path_join_storage_inj in Heq.
  eapply append_same_length_head; [|exact Heq].
  unfold new_document_id. by rewrite !length_hex_digits.
Qed.

(** C2 (amended): when the title is empty or no file is uploaded, the form
    does not call [add_document]: nothing is raised and the store, with all
    its tables, is returned as it was. *)
Theorem add_form_skips_incomplete (submit : bool) (now1 now2 : string)
  (title notes tags : string) (files : list UploadedFile) (s : Store) :
  title = "" \/ files = [] ->
  add_form hashlib_md5 hashlib_sha256 magic_from_buffer
    submit now1 now2 title notes tags files s = Ok s.
Proof.
  intros [-> | ->]; unfold add_form.
  - by rewrite andb_false_r.
  - simpl. by rewrite andb_false_r.
Qed.


(** ** Hashing and writing *)

Lemma drop_length_take {A} n (l : list A) :
  drop (length (take n l)) l = drop n l.
Proof.
  rewrite length_take. destruct (Nat.min_spec n (length l)) as [[_ ->]|[Hle ->]];
    [done|]. by rewrite !drop_ge by lia.
Qed.

(** With more fuel than bytes left, the loop feeds the hash object the whole
    rest of the stream and leaves the stream at its end. *)
Lemma update_chunks_reads_all size fuel fed f :
  0 < size ->
  length (drop (position f) (buffer f)) < fuel ->
  update_chunks size fuel fed f =
  (fed ++ drop (position f) (buffer f),
   {| buffer := buffer f;
      position := position f + length (drop (position f) (buffer f)) |}).
Proof.
  intros Hsize. revert fed f.
  induction fuel as [|fuel IH]; intros fed [buf pos] Hfuel; [lia|].
  cbn [update_chunks read buffer position] in *.
  destruct (drop pos buf) as [|x rest] eqn:Hrest.
  - rewrite take_nil. cbn [is_empty length]. by rewrite app_nil_r.
  - destruct size as [|size]; [lia|].
    cbn [take firstn is_empty]. rewrite IH; cbn [buffer position length].
    + rewrite <- drop_drop, Hrest. cbn [drop skipn].
      rewrite drop_length_take, <- app_assoc. cbn [app].
      rewrite take_drop. do 2 f_equal.
      rewrite length_drop, length_take. cbn [length]. lia.
    + rewrite <- drop_drop, Hrest. cbn [drop skipn].
      rewrite length_drop. cbn [length] in Hfuel. lia.
Qed.

Lemma compute_sha256_upload upload :
  compute_sha256 hashlib_sha256 (open_upload upload) =
  (hex_digits 64 (hashlib_sha256 (content upload)),
   {| buffer := content upload; position := 0 |}).
Proof.
  unfold compute_sha256, open_upload.
  rewrite update_chunks_reads_all.
  - cbn [buffer position]. by rewrite drop_0.
  - apply Nat.lt_0_succ.
  - cbn [buffer position]. rewrite drop_0. apply Nat.lt_succ_diag_r.
Qed.

Lemma store_file_effect document_id s upload :
  store_file hashlib_sha256 magic_from_buffer document_id s upload =
  {| Documents := Documents s;
     Files := Files s ++ [file_row hashlib_sha256 magic_from_buffer document_id (Files s) upload];
     Tags := Tags s;
     storage := write_upload document_id (storage s) upload |}.
Proof.
  unfold store_file. rewrite compute_sha256_upload.
  unfold read_all, read, seek0. cbn [buffer position].
  by rewrite !drop_0.
Qed.

Lemma store_tags_effect document_id tags s :
  let s' := fold_left (store_tag document_id) tags s in
  Documents s' = Documents s /\ Files s' = Files s /\ storage s' = storage s.
Proof.
  revert s. induction tags as [|tag tags IH]; intros s; [done|].
  cbn [fold_left]. destruct (IH (store_tag document_id s tag)) as (-> & -> & ->).
  unfold store_tag. by destruct (String.eqb tag "").
Qed.

Lemma store_files_storage document_id files s :
  storage (fold_left (store_file hashlib_sha256 magic_from_buffer document_id)
             files s) =
  fold_left (write_upload document_id) files (storage s).
Proof.
  revert s. induction files as [|upload files IH]; intros s; [done|].
  cbn [fold_left]. rewrite IH. by rewrite store_file_effect.
Qed.

Lemma store_files_rows document_id files s :
  exists rows,
    Files (fold_left (store_file hashlib_sha256 magic_from_buffer document_id)
             files s) = Files s ++ rows
    /\ length rows = length files
    /\ forall i upload, files !! i = Some upload ->
         exists fs, rows !! i = Some (file_row hashlib_sha256 magic_from_buffer document_id fs upload).
Proof.
  revert s. induction files as [|upload files IH]; intros s.
  - exists []. by rewrite app_nil_r.
  - cbn [fold_left].
    destruct (IH (store_file hashlib_sha256 magic_from_buffer document_id s upload))
      as (rows & HF & Hlen & Hrows).
    exists (file_row hashlib_sha256 magic_from_buffer document_id (Files s) upload :: rows).
    split; [|split; [by cbn [length]; rewrite Hlen|]].
    { rewrite HF, store_file_effect. cbn [Files]. by rewrite <- app_assoc. }
    intros [|i] u Hu.
    + injection Hu as <-. by eexists.
    + by apply Hrows.
Qed.

Lemma writes_keep_other_path document_id path bytes files
  (m : gmap string (list Byte.byte)) :
  m !! path = Some bytes ->
  (forall upload, upload ∈ files ->
     storage_path document_id (name upload) <> path) ->
  fold_left (write_upload document_id) files m !! path = Some bytes.
Proof.
  revert m. induction files as [|upload files IH]; intros m Hm Hne; [done|].
  cbn [fold_left]. apply IH.
  - unfold write_upload. rewrite lookup_insert_ne; [done|].
    apply Hne. by left.
  - intros u Hu. apply Hne. by right.
Qed.

Lemma write_then_read document_id upload files
  (m : gmap string (list Byte.byte)) :
  fold_left (write_upload document_id) (files ++ [upload]) m
    !! storage_path document_id (name upload) = Some (content upload).
Proof.
  rewrite fold_left_app. cbn [fold_left]. unfold write_upload at 1.
  by rewrite lookup_insert_eq.
Qed.

(** Hash and bytes, round by round: every [Files] row that [add_document]
    creates records the SHA-256 hex digest of the whole uploaded content,
    and that content is what the loop has just written at the row's
    [local_path]; it is still there when [add_document] returns unless a
    later file of the same call has the same name. *)
Theorem stored_sha256_matches_written_bytes (now1 now2 title notes tags : string)
  (files : list UploadedFile) (s s' : Store) (document_id : string) :
  add_document hashlib_md5 hashlib_sha256 magic_from_buffer
    now1 now2 title notes tags files s = Ok (document_id, s') ->
  exists rows,
    Files s' = Files s ++ rows
    /\ length rows = length files
    /\ forall i upload, files !! i = Some upload ->
         exists row,
           rows !! i = Some row
           /\ filename row = name upload
           /\ local_path row = storage_path document_id (name upload)
           /\ sha256 row = hex_digits 64 (hashlib_sha256 (content upload))
           /\ storage (fold_left
                         (store_file hashlib_sha256 magic_from_buffer document_id)
                         (take (S i) files) s)
                !! local_path row = Some (content upload)
           /\ ((forall j later, i < j -> files !! j = Some later ->
                  name later <> name upload) ->
               storage s' !! local_path row = Some (content upload)).
Proof.
  unfold add_document. destruct (Documents s !! _) as [|] eqn:Hfresh; [done|].
  intros [= <- <-].
  set (id := new_document_id hashlib_md5 title now1).
  match goal with
  | |- context [fold_left (store_file _ _ id) files ?st] => set (s0 := st)
  end.
  destruct (store_tags_effect id
              (if String.eqb tags "" then []
               else Str.strip <$> Str.split_on "," tags)
              (fold_left (store_file hashlib_sha256 magic_from_buffer id) files s0))
    as (_ & HF & HS). cbn zeta in HF, HS.
  destruct (store_files_rows id files s0) as (rows & HR & Hlen & Hrows).
  exists rows. split; [by rewrite HF, HR|]. split; [done|].
  intros i upload Hi. destruct (Hrows i upload Hi) as [fs Hrow].
  exists (file_row hashlib_sha256 magic_from_buffer id fs upload). split; [done|].
  cbn [file_row filename local_path sha256]. do 3 (split; [done|]).
  pose proof (take_drop_middle files i upload Hi) as Hsplit.
  split.
  - rewrite store_files_storage.
    rewrite (take_S_r files i upload Hi). apply write_then_read.
  - intros Hlater. rewrite HS, store_files_storage. cbn [storage s0].
    rewrite <- Hsplit, fold_left_app. cbn [fold_left].
    apply writes_keep_other_path.
    + unfold write_upload at 1. by rewrite lookup_insert_eq.
    + intros later Hin Hpath. apply storage_path_inj_filename in Hpath.
      apply list_elem_of_lookup in Hin as [k Hk].
      rewrite lookup_drop in Hk.
      by apply (Hlater (S i + k) later); [lia|..].
Qed.

End IngestionProperties.

(** * Further properties *)

(** ** Tokens *)

Lemma re_split_spaces_cons in_run s :
  exists piece pieces, Str.re_split_spaces in_run s = piece :: pieces.
Proof.
  revert in_run. induction s as [|c s IH]; intros in_run; simpl; [by eauto|].
  destruct (Str.isspace c).
  - destruct in_run; [apply IH|by eauto].
  - destruct (IH false) as (p & ps & ->). by eauto.
Qed.

Lemma re_split_spaces_word in_run w s piece pieces :
  no_space w -> w <> "" ->
  Str.re_split_spaces false s = piece :: pieces ->
  Str.re_split_spaces in_run (w ++ s)%string = (w ++ piece)%string :: pieces.
Proof.
  intros Hw Hne Hs. revert in_run Hne.
  induction w as [|c w IH]; intros in_run Hne; [done|].
  apply Forall_cons in Hw as [Hc Hw]. rewrite !append_cons.
  cbn [Str.re_split_spaces]. rewrite Hc.
  destruct w as [|c' w].
  - change (("" ++ s)%string) with s. by rewrite Hs.
  - by rewrite (IH Hw false).
Qed.

Lemma lstrip_word w s : no_space w -> w <> "" -> Str.lstrip (w ++ s) = (w ++ s)%string.
Proof.
  destruct w as [|c w]; [done|]. intros [Hc _]%Forall_cons _.
  rewrite append_cons. simpl. by rewrite Hc.
Qed.

Lemma rstrip_word w : no_space w -> Str.rstrip w = w.
Proof.
  induction w as [|c w IH]; [done|]. intros [Hc Hw]%Forall_cons.
  simpl. rewrite (IH Hw), Hc. by destruct w.
Qed.

Lemma rstrip_append a s :
  Str.rstrip s = s -> s <> "" -> Str.rstrip (a ++ s) = (a ++ s)%string.
Proof.
  intros Hs Hne. induction a as [|c a IH]; [done|].
  rewrite append_cons. simpl. rewrite IH.
  destruct (a ++ s)%string eqn:Has; [|done].
  destruct a; [by change (s = "") in Has|by rewrite append_cons in Has].
Qed.

Lemma append_empty_r (s : string) : (s ++ "")%string = s.
Proof. induction s as [|c s IH]; [done|]. by rewrite append_cons, IH. Qed.

Lemma join_cons2 sep w w' ws :
  Str.join sep (w :: w' :: ws) = (w ++ sep ++ Str.join sep (w' :: ws))%string.
Proof. done. Qed.

Lemma join_words_shape ws :
  ws <> [] -> Forall (fun w => no_space w /\ w <> "") ws ->
  exists c rest, Str.join " " ws = String c rest /\ Str.isspace c = false
    /\ Str.rstrip (Str.join " " ws) = Str.join " " ws.
Proof.
  induction ws as [|w [|w' ws] IH]; [done|..]; intros _ [[Hw Hne] Hws]%Forall_cons.
  - destruct w as [|c w]; [done|]. exists c, w.
    split; [done|]. split; [by apply Forall_cons in Hw as [? _]|].
    by apply rstrip_word.
  - destruct (IH ltac:(done) Hws) as (c' & rest & Hj & Hc' & Hr).
    rewrite join_cons2. destruct w as [|c w]; [done|].
    exists c, (w ++ " " ++ Str.join " " (w' :: ws))%string.
    split; [by rewrite append_cons|]. split; [by apply Forall_cons in Hw as [? _]|].
    rewrite (rstrip_append (String c w)); [done|..].
    + apply rstrip_append; [done|]. by rewrite Hj.
    + by rewrite Hj.
Qed.

(** X1: words joined by single spaces are split back into the same words. *)
Theorem tokens_join_words (ws : list string) :
  ws <> [] -> Forall (fun w => no_space w /\ w <> "") ws ->
  tokens (Str.join " " ws) = ws.
Proof.
  intros Hne Hws. unfold tokens, Str.strip.
  destruct (join_words_shape ws Hne Hws) as (c0 & rest0 & Hj0 & Hc0 & Hr).
  assert (Str.lstrip (Str.join " " ws) = Str.join " " ws) as ->.
  { rewrite Hj0. simpl. by rewrite Hc0. }
  rewrite Hr. clear c0 rest0 Hj0 Hc0 Hr.
  induction ws as [|w [|w' ws] IH]; [done|..];
    apply Forall_cons in Hws as [[Hw Hwne] Hws].
  - cbn [Str.join String.concat].
    rewrite <- (append_empty_r w) at 1.
    rewrite (re_split_spaces_word false w "" "" []) by done.
    by rewrite append_empty_r.
  - rewrite join_cons2.
    destruct (join_words_shape (w' :: ws) ltac:(done) Hws)
      as (c & rest & Hj & Hc & _).
    rewrite (re_split_spaces_word false w _ "" (w' :: ws)); try done.
    + by rewrite append_empty_r.
    + change (" " ++ Str.join " " (w' :: ws))%string
        with (String " " (Str.join " " (w' :: ws))).
      cbn [Str.re_split_spaces]. change (Str.isspace " ") with true. cbn iota.
      f_equal. rewrite <- (IH ltac:(done) Hws) at 2.
      rewrite Hj. cbn [Str.re_split_spaces]. by rewrite Hc.
Qed.

Lemma lstrip_blank q : blank q -> Str.lstrip q = "".
Proof.
  induction q as [|c q IH]; [done|]. intros [Hc Hq]%Forall_cons.
  simpl. rewrite Hc. by apply IH.
Qed.

Lemma tokens_blank q : blank q -> tokens q = [""].
Proof. intros Hq. unfold tokens, Str.strip. by rewrite (lstrip_blank q Hq). Qed.

(** ** The bags as functions of the tokens *)

Lemma fold_classify_cons token l :
  fold_left classify (token :: l) no_bags =
  bags_app (classify no_bags token) (fold_left classify l no_bags).
Proof. cbn [fold_left]. apply fold_classify_app. Qed.

Lemma bags_of_tokens l :
  let b := fold_left classify l no_bags in
  tags b = Str.drop 4 <$> filter (fun t => kind_of t = TagToken) l
  /\ years b = Str.drop 5 <$> filter (fun t => kind_of t = YearToken) l
  /\ mimes b = Str.drop 5 <$> filter (fun t => kind_of t = MimeToken) l
  /\ excludes b = Str.drop 1 <$> filter (fun t => kind_of t = Exclusion) l.
Proof.
  induction l as [|token l IH]; [done|].
  rewrite fold_classify_cons, classify_by_kind. cbn zeta in *.
  destruct IH as (Ht & Hy & Hm & He).
  rewrite !filter_cons.
  destruct (kind_of token); cbn [bags_app tags years mimes excludes app];
    repeat case_decide; try done; cbn [fmap list_fmap];
    by rewrite Ht, Hy, Hm, He.
Qed.

Lemma conditions_of_tokens l :
  let b := fold_left classify l no_bags in
  length (params b) = 2 * length (filter (fun t => kind_of t = Literal) l)
  /\ length (filter (fun f => f = LIKE_TERM) (conditions b))
     = length (filter (fun t => kind_of t = Literal) l)
  /\ length (filter (fun f => f <> LIKE_TERM) (conditions b))
     = length (filter (fun t => kind_of t = Keyword) l).
Proof.
  induction l as [|token l IH]; [done|].
  rewrite fold_classify_cons, classify_by_kind. cbn zeta in *.
  destruct IH as (Hp & Hl & Hk).
  rewrite !filter_cons.
  destruct (kind_of token); cbn [bags_app params conditions app];
    repeat case_decide; try done; rewrite ?filter_cons;
    repeat case_decide; try done; cbn [length]; try lia.
  all: by destruct (String.eqb token "AND").
Qed.

(** ** Preparing and binding, in general *)

Lemma compile_params b :
  (compile b).2 =
  params b ++ tags b ++ years b ++ (Str.contains_pattern <$> mimes b)
  ++ (Str.contains_pattern <$> excludes b)
  ++ (Str.contains_pattern <$> excludes b).
Proof.
  unfold compile.
  destruct (tags b), (years b), (mimes b), (excludes b), (conditions b);
    cbn [is_empty snd fmap list_fmap]; by rewrite <- ?app_assoc, ?app_nil_r.
Qed.

Lemma prepare_app sql1 sql2 :
  prepare (sql1 ++ sql2) =
  match prepare sql1, prepare sql2 with
  | Some ts1, Some ts2 => Some (ts1 ++ ts2)
  | _, _ => None
  end.
Proof.
  induction sql1 as [|c sql1 IH]; cbn [app prepare].
  - by destruct (prepare sql2).
  - rewrite IH. destruct (parse_clause c), (prepare sql1), (prepare sql2);
      by rewrite <- ?app_assoc.
Qed.

Lemma prepare_compile b :
  prepare (compile b).1 =
  match (if is_empty (conditions b) then Some []
         else parse_conditions (KW_AND :: conditions b)) with
  | Some cs => Some (group_terms b ++ cs)
  | None => None
  end.
Proof.
  unfold compile, group_terms.
  destruct (is_empty (tags b)), (is_empty (years b)), (is_empty (mimes b)),
    (is_empty (excludes b)), (is_empty (conditions b));
    cbn [fst app prepare parse_clause]; try done.
  all: destruct (parse_conditions (KW_AND :: conditions b)); cbn [app]; try done.
  all: by rewrite ?app_nil_r.
Qed.

Lemma bind_params_Some ts (ps : list string) :
  is_Some (bind_params ts ps) <-> length ps = placeholder_count ts.
Proof.
  unfold placeholder_count. revert ps.
  induction ts as [|[k t] ts IH]; intros ps;
    cbn [bind_params fmap list_fmap sum_list sum_list_with snd id].
  - destruct ps; cbn; split; (done || by intros []).
  - destruct (Nat.ltb_spec (length ps) (placeholders t)) as [Hlt|Hge].
    + split; [by intros []|intros ?; lia].
    + rewrite fmap_is_Some, IH, length_drop. lia.
Qed.

Lemma parse_conditions_count fs :
  (forall ts, parse_conditions fs = Some ts ->
     length (filter (fun f => f = LIKE_TERM) fs) = length ts
     /\ length (filter (fun f => f <> LIKE_TERM) fs) = length ts
     /\ placeholder_count ts = 2 * length ts)
  /\ (forall f ts, parse_conditions (f :: fs) = Some ts ->
        length (filter (fun f => f = LIKE_TERM) (f :: fs)) = length ts
        /\ length (filter (fun f => f <> LIKE_TERM) (f :: fs)) = length ts
        /\ placeholder_count ts = 2 * length ts).
Proof.
  induction fs as [|g fs [IH1 IH2]].
  - split; [by intros ts [= <-]|]. by intros [] ts.
  - split; [apply IH2|].
    intros f ts Hparse.
    destruct f, g; try done; cbn [parse_conditions] in Hparse;
      destruct (parse_conditions fs) as [ts'|] eqn:Hfs; try done;
      injection Hparse as <-;
      destruct (IH1 ts' eq_refl) as (H1 & H2 & H3);
      rewrite !filter_cons; repeat case_decide; try done;
      cbn [length]; unfold placeholder_count in *;
      cbn [fmap list_fmap sum_list sum_list_with snd placeholders id];
      rewrite ?H1, ?H2; repeat split; try done; lia.
Qed.

Lemma placeholder_count_app ts1 ts2 :
  placeholder_count (ts1 ++ ts2) = placeholder_count ts1 + placeholder_count ts2.
Proof. apply sum_list_with_app. Qed.

Lemma placeholder_count_groups b :
  placeholder_count (group_terms b) =
  length (tags b) + length (years b) + length (mimes b)
  + (if is_empty (excludes b) then 0 else 2).
Proof.
  unfold group_terms. rewrite !placeholder_count_app.
  destruct (tags b), (years b), (mimes b), (excludes b); cbn; lia.
Qed.

(** ** LIKE and substrings *)







Section MoreSearchProperties.

Variable strftime_Y : string -> option string.

(** ** The shape of every outcome *)

Lemma search_documents_answers s query rows :
  search_documents strftime_Y s query = Ok rows ->
  exists bs, forall s', search_documents strftime_Y s' query = Ok (answers strftime_Y s' bs).
Proof.
  unfold search_documents. destruct (parse_search_query query) as [sql ps].
  unfold execute. destruct (prepare sql) as [ts|]; [|done].
  destruct (bind_params ts ps) as [bs|]; [|done]. intros _. by exists bs.
Qed.

Lemma elem_of_answers s bs r :
  r ∈ answers strftime_Y s bs <->
  exists id d, Documents s !! id = Some d
    /\ where_value strftime_Y s id d true bs = true
    /\ r = make_row s id d.
Proof.
  unfold answers. rewrite order_by_created_at_desc_perm, list_elem_of_fmap.
  split.
  - intros ([id d] & -> & [Hv Hin]%list_elem_of_filter).
    exists id, d. rewrite <- elem_of_map_to_list. by apply Is_true_true in Hv.
  - intros (id & d & Hd & Hv & ->). exists (id, d). split; [done|].
    apply list_elem_of_filter. split; [by apply Is_true_true|].
    by apply elem_of_map_to_list.
Qed.

Lemma answers_ids_NoDup s bs : NoDup (row_document_id <$> answers strftime_Y s bs).
Proof.
  unfold answers. rewrite order_by_created_at_desc_perm, <- list_fmap_compose.
  rewrite (list_fmap_ext _ fst) by done.
  apply (sublist_NoDup _ ((map_to_list (Documents s)).*1));
    [apply NoDup_fst_map_to_list|].
  apply fmap_sublist, sublist_filter.
Qed.

(** X3: whenever a search answers, the rows are in descending order of
    [created_at], no document occurs twice, and every row shows the columns
    of the stored document with its id. *)
Theorem search_rows_are_stored_documents (s : Store) (query : string)
  (rows : list Row) :
  search_documents strftime_Y s query = Ok rows ->
  Sorted later_or_same rows
  /\ NoDup (row_document_id <$> rows)
  /\ forall r, r ∈ rows ->
       Documents s !! row_document_id r = Some (row_document r).2.
Proof.
  intros Hq. destruct (search_documents_answers s query rows Hq) as [bs Hbs].
  rewrite (Hbs s) in Hq. injection Hq as <-.
  split; [apply order_by_created_at_desc_sorted|].
  split; [apply answers_ids_NoDup|].
  intros r (id & d & Hd & _ & ->)%elem_of_answers.
  by rewrite row_document_make_row.
Qed.

(** ** Errors *)

Lemma search_documents_outcome s query :
  let b := fold_left classify (tokens query) no_bags in
  search_documents strftime_Y s query =
  match (if is_empty (conditions b) then Some []
         else parse_conditions (KW_AND :: conditions b)) with
  | None => Raise OperationalError
  | Some cs =>
      match bind_params (group_terms b ++ cs) (compile b).2 with
      | None => Raise ProgrammingError
      | Some bs => Ok (answers strftime_Y s bs)
      end
  end.
Proof.
  cbn zeta. rewrite search_documents_bags. cbn zeta. unfold execute.
  rewrite prepare_compile. by destruct (if is_empty _ then _ else _).
Qed.

Lemma binding_balance l cs :
  let b := fold_left classify l no_bags in
  (if is_empty (conditions b) then Some []
   else parse_conditions (KW_AND :: conditions b)) = Some cs ->
  is_Some (bind_params (group_terms b ++ cs) (compile b).2)
  <-> length (excludes b) <= 1.
Proof.
  cbn zeta. intros Hcs.
  destruct (conditions_of_tokens l) as (Hp & Hl & _). cbn zeta in Hp, Hl.
  assert (length (params (fold_left classify l no_bags)) = 2 * length cs
          /\ placeholder_count cs = 2 * length cs) as [Hpar Hcount].
  { destruct (conditions (fold_left classify l no_bags)) as [|f fs] eqn:Hc.
    - injection Hcs as <-. rewrite Hp, <- Hl. done.
    - cbn [is_empty] in Hcs.
      destruct (parse_conditions_count (f :: fs)) as [_ Hpc].
      destruct (Hpc KW_AND cs Hcs) as (H1 & _ & H3).
      rewrite filter_cons_False in H1 by (intros ?; done).
      split; [|done]. by rewrite Hp, <- Hl, H1. }
  rewrite bind_params_Some, compile_params, placeholder_count_app,
    placeholder_count_groups, Hcount.
  rewrite !length_app, !length_fmap, Hpar.
  destruct (excludes (fold_left classify l no_bags)) as [|e [|e' es]];
    cbn [is_empty length]; lia.
Qed.

Lemma count_exclusions query :
  length (excludes (fold_left classify (tokens query) no_bags))
  = count_kind Exclusion query.
Proof.
  destruct (bags_of_tokens (tokens query)) as (_ & _ & _ & ->).
  by rewrite length_fmap.
Qed.

(** X4: a query with two or more exclusion tokens never answers: the search
    raises an exception on every store. *)
Theorem two_exclusions_never_answer (s : Store) (query : string) :
  2 <= count_kind Exclusion query ->
  exists e, search_documents strftime_Y s query = Raise e.
Proof.
  intros Hn. rewrite search_documents_outcome. cbn zeta.
  destruct (if is_empty _ then _ else _) as [cs|] eqn:Hcs; [|by eauto].
  destruct (bind_params _ _) as [bs|] eqn:Hb; [|by eauto].
  assert (is_Some (bind_params
            (group_terms (fold_left classify (tokens query) no_bags) ++ cs)
            (compile (fold_left classify (tokens query) no_bags)).2)) as Hsome
    by (by rewrite Hb).
  apply (binding_balance (tokens query) cs Hcs) in Hsome.
  rewrite count_exclusions in Hsome. lia.
Qed.

(** X5: the number of bindings is wrong only when the query has two or more
    exclusion tokens. *)
Theorem binding_error_needs_two_exclusions (s : Store) (query : string) :
  search_documents strftime_Y s query = Raise ProgrammingError ->
  2 <= count_kind Exclusion query.
Proof.
  rewrite search_documents_outcome. cbn zeta.
  destruct (if is_empty _ then _ else _) as [cs|] eqn:Hcs; [|done].
  destruct (bind_params _ _) as [bs|] eqn:Hb; [done|]. intros _.
  destruct (decide (2 <= count_kind Exclusion query)) as [|Hlt]; [done|].
  assert (is_Some (bind_params
            (group_terms (fold_left classify (tokens query) no_bags) ++ cs)
            (compile (fold_left classify (tokens query) no_bags)).2)) as [bs Hbs].
  { apply (binding_balance (tokens query) cs Hcs).
    rewrite count_exclusions. lia. }
  congruence.
Qed.

(** X6: the text built from the literal terms and the keywords is an
    expression only if there is exactly one more literal term than
    keywords; any other count makes the search fail with a syntax error. *)
Theorem literal_keyword_count_mismatch (s : Store) (query : string) :
  0 < count_kind Literal query + count_kind Keyword query ->
  count_kind Literal query <> count_kind Keyword query + 1 ->
  search_documents strftime_Y s query = Raise OperationalError.
Proof.
  intros Hsome Hne. rewrite search_documents_outcome. cbn zeta.
  destruct (conditions_of_tokens (tokens query)) as (_ & Hl & Hk).
  cbn zeta in Hl, Hk. fold (count_kind Literal query) in Hl.
  fold (count_kind Keyword query) in Hk.
  destruct (conditions (fold_left classify (tokens query) no_bags))
    as [|f fs] eqn:Hc.
  - cbn in Hl, Hk. lia.
  - cbn [is_empty].
    destruct (parse_conditions (KW_AND :: f :: fs)) as [cs|] eqn:Hcs; [|done].
    destruct (parse_conditions_count (f :: fs)) as [_ Hpc].
    destruct (Hpc KW_AND cs Hcs) as (H1 & H2 & _).
    rewrite filter_cons_False in H1 by (intros ?; done).
    rewrite filter_cons_True in H2 by done. cbn [length] in H2. lia.
Qed.

(** X2: a query of white space only is searched as the empty query. *)
Theorem blank_query_is_empty_query (s : Store) (query : string) :
  blank query ->
  search_documents strftime_Y s query = search_documents strftime_Y s "".
Proof.
  intros Hq. rewrite !search_documents_bags. cbn zeta.
  by rewrite (tokens_blank query Hq).
Qed.

(** ** What the bags select *)

Lemma count_kind_zero k query :
  count_kind k query = 0 -> Forall (fun t => kind_of t <> k) (tokens query).
Proof.
  unfold count_kind. intros Hlen%nil_length_inv.
  apply Forall_forall. intros t Hin Hk.
  by apply (filter_nil_not_elem_of _ _ t Hlen).
Qed.

Lemma group_holds_iff {A} (f : A -> bool) (l : list A) :
  is_empty l || existsb f l = true
  <-> l = [] \/ exists x, x ∈ l /\ f x = true.
Proof.
  rewrite orb_true_iff, existsb_elem_of.
  by destruct l; split; intros [|]; auto.
Qed.

Lemma selects_iff s b id d :
  length (excludes b) <= 1 ->
  selects strftime_Y s b id d = true <->
  (tags b = [] \/ exists v, v ∈ tags b /\ (id, v) ∈ Tags s)
  /\ (years b = [] \/ exists y, y ∈ years b
                        /\ strftime_Y (created_at d) = Some y)
  /\ (mimes b = [] \/ exists f m, f ∈ Files s /\ file_document_id f = id
                        /\ m ∈ mimes b
                        /\ Str.like (Str.contains_pattern m) (mimetype f) = true)
  /\ (forall e, e ∈ excludes b ->
        Str.like (Str.contains_pattern e) (title d) = false
        /\ Str.like (Str.contains_pattern e) (notes d) = false).
Proof.
  intros He. unfold selects, holds.
  rewrite !andb_true_iff, !group_holds_iff.
  assert (forall A B C D A' B' C' D' : Prop,
            (A <-> A') -> (B <-> B') -> (C <-> C') -> (D <-> D') ->
            (((A /\ B) /\ C) /\ D <-> A' /\ B' /\ C' /\ D')) as Hcong by tauto.
  apply Hcong.
  - apply or_iff_compat_l. by setoid_rewrite bool_decide_eq_true.
  - apply or_iff_compat_l. by setoid_rewrite bool_decide_eq_true.
  - rewrite orb_true_iff, existsb_elem_of.
    assert (is_empty (mimes b) = true <-> mimes b = []) as ->
      by (by destruct (mimes b)).
    apply or_iff_compat_l. split.
    + intros (f & Hf & [Hid (p & Hp & Hlike)%existsb_elem_of]%andb_true_iff).
      apply list_elem_of_fmap in Hp as (m & -> & Hm).
      apply String.eqb_eq in Hid. by exists f, m.
    + intros (f & m & Hf & Hid & Hm & Hlike). exists f. split; [done|].
      apply andb_true_iff. split; [by apply String.eqb_eq|].
      apply existsb_elem_of. exists (Str.contains_pattern m).
      split; [|done]. apply list_elem_of_fmap. by exists m.
  - destruct (excludes b) as [|e [|e' es]]; [..|cbn in He; lia].
    + split; [by intros _ e ?%elem_of_nil|done].
    + rewrite andb_true_iff, !negb_true_iff. split.
      * by intros H e' ->%list_elem_of_singleton.
      * intros H. apply H. by left.
Qed.

(** X7: a query made of [tag:], [year:], [mime:] tokens and at most one
    exclusion token answers with exactly the documents that pass every
    group that has a value: one of the tags, one of the years, a file whose
    MIME type is LIKE one of the [mime:] values, and neither title nor notes
    LIKE the excluded value. *)
Theorem group_tokens_select (s : Store) (query : string) :
  count_kind Literal query = 0 ->
  count_kind Keyword query = 0 ->
  count_kind Exclusion query <= 1 ->
  exists rows,
    search_documents strftime_Y s query = Ok rows
    /\ forall id,
         (exists r, r ∈ rows /\ row_document_id r = id) <->
         exists d,
           Documents s !! id = Some d
           /\ (values_of TagToken 4 query = []
               \/ exists v, v ∈ values_of TagToken 4 query /\ (id, v) ∈ Tags s)
           /\ (values_of YearToken 5 query = []
               \/ exists y, y ∈ values_of YearToken 5 query
                    /\ strftime_Y (created_at d) = Some y)
           /\ (values_of MimeToken 5 query = []
               \/ exists f m, f ∈ Files s /\ file_document_id f = id
                    /\ m ∈ values_of MimeToken 5 query
                    /\ Str.like (Str.contains_pattern m) (mimetype f) = true)
           /\ (forall e, e ∈ values_of Exclusion 1 query ->
                 Str.like (Str.contains_pattern e) (title d) = false
                 /\ Str.like (Str.contains_pattern e) (notes d) = false).
Proof.
  intros Hlit Hkw Hex.
  pose proof (no_literal_bags _ (count_kind_zero _ _ Hlit)) as [Hp _].
  destruct (conditions_of_tokens (tokens query)) as (_ & Hl & Hk).
  destruct (bags_of_tokens (tokens query)) as (Ht & Hy & Hm & He).
  cbn zeta in *.
  set (b := fold_left classify (tokens query) no_bags) in *.
  assert (conditions b = []) as Hc.
  { unfold count_kind in Hlit, Hkw. rewrite Hlit in Hl. rewrite Hkw in Hk.
    destruct (conditions b) as [|f fs]; [done|].
    rewrite filter_cons in Hl, Hk. by repeat case_decide. }
  assert (length (excludes b) <= 1) as Hlen.
  { by rewrite He, length_fmap. }
  pose proof (execute_no_conditions strftime_Y s b Hp Hc) as Hexec.
  eexists. split.
  - rewrite search_documents_bags. cbn zeta. fold b. rewrite Hexec.
    by destruct (excludes b) as [|e [|e' es]]; [..|cbn in Hlen; lia].
  - intros id. unfold values_of. rewrite <- Ht, <- Hy, <- Hm, <- He.
    setoid_rewrite order_by_created_at_desc_perm.
    setoid_rewrite list_elem_of_fmap. setoid_rewrite list_elem_of_filter.
    split.
    + intros (r & ([id' d] & -> & Hsel & Hin) & <-). cbn [fst snd] in *.
      exists d. split; [by apply elem_of_map_to_list|].
      by apply selects_iff, Is_true_true.
    + intros (d & Hd & Hsel). exists (make_row s id d). split; [|done].
      exists (id, d). split; [done|].
      split; [|by apply elem_of_map_to_list].
      by apply Is_true_true, selects_iff.
Qed.


(** ** Literal terms *)

Lemma literal_bags t :
  kind_of t = Literal ->
  classify no_bags t =
  {| conditions := [LIKE_TERM];
     params := [Str.contains_pattern t; Str.contains_pattern t];
     tags := []; years := []; mimes := []; excludes := [] |}.
Proof. intros Hk. by rewrite classify_by_kind, Hk. Qed.



(** X10: two literal terms joined by [AND] answer with the documents that
    match both, joined by [OR] with the documents that match one of them. *)
Theorem two_literal_terms_select (s : Store) (query a op b : string) :
  tokens query = [a; op; b] ->
  kind_of a = Literal -> kind_of b = Literal ->
  op = "AND" \/ op = "OR" ->
  exists rows,
    search_documents strftime_Y s query = Ok rows
    /\ forall id,
         (exists r, r ∈ rows /\ row_document_id r = id) <->
         exists d, Documents s !! id = Some d
           /\ if String.eqb op "AND" then matches a d /\ matches b d
              else matches a d \/ matches b d.
Proof.
  intros Htok Ha Hb Hop.
  set (pa := Str.contains_pattern a). set (pb := Str.contains_pattern b).
  assert (search_documents strftime_Y s query =
          Ok (answers strftime_Y s
                [(AND, Like pa pa);
                 (if String.eqb op "AND" then AND else OR, Like pb pb)]))
    as Hq.
  { rewrite search_documents_outcome, Htok.
    rewrite !fold_classify_cons, (literal_bags a Ha), (literal_bags b Hb).
    by destruct Hop as [-> | ->]. }
  eexists. split; [exact Hq|].
  intros id. setoid_rewrite elem_of_answers.
  assert (forall d,
            where_value strftime_Y s id d true
              [(AND, Like pa pa);
               (if String.eqb op "AND" then AND else OR, Like pb pb)] = true
            <-> if String.eqb op "AND" then matches a d /\ matches b d
                else matches a d \/ matches b d) as Hv.
  { intros d. unfold matches. fold pa pb.
    destruct Hop as [-> | ->]; cbn [String.eqb Ascii.eqb Bool.eqb where_value holds];
      cbn; rewrite ?andb_true_iff, !orb_true_iff; tauto. }
  split.
  - intros (r & (id' & d & Hd & Hw & ->) & <-). exists d. split; [done|].
    by apply Hv.
  - intros (d & Hd & Hm). exists (make_row s id d). split; [|done].
    exists id, d. split; [done|]. split; [|done]. by apply Hv.
Qed.

(** ** The Documents page *)

(** X11: after [toggle_archive(id, True)] the page without "Show archived
    documents" shows no row of that document, whatever the query. *)
Theorem archived_document_is_hidden (s s' : Store) (document_id query : string)
  (rows : list Row) :
  toggle_archive document_id true s = Ok s' ->
  search_documents strftime_Y s' query = Ok rows ->
  forall r, r ∈ visible_results false rows -> row_document_id r <> document_id.
Proof.
  intros [= <-] Hq r [Harch Hr]%list_elem_of_filter Hid.
  destruct (search_documents_answers _ _ _ Hq) as [bs Hbs].
  rewrite Hbs in Hq. injection Hq as <-.
  apply elem_of_answers in Hr as (id & d & Hd & _ & ->).
  cbn [make_row row_document_id row_archived Documents] in *. subst id.
  rewrite lookup_alter_eq in Hd.
  destruct (Documents s !! document_id) as [d0|]; [|done].
  injection Hd as <-. done.
Qed.

(** X12: once [toggle_archive(id, False)] has run, a document that a query
    finds is still found and its row passes the archived filter of the
    Documents page (lines 259-260), with or without "Show archived
    documents".  Nothing is said about what the page then draws. *)
Theorem unarchived_document_passes_filter (s s' : Store)
  (document_id query : string) (rows : list Row) :
  toggle_archive document_id false s = Ok s' ->
  search_documents strftime_Y s query = Ok rows ->
  (exists r, r ∈ rows /\ row_document_id r = document_id) ->
  exists rows',
    search_documents strftime_Y s' query = Ok rows'
    /\ forall show_archived : bool,
         exists r', r' ∈ visible_results show_archived rows'
                    /\ row_document_id r' = document_id.
Proof.
  intros [= <-] Hq (r & Hr & Hid).
  destruct (search_documents_answers _ _ _ Hq) as [bs Hbs].
  rewrite Hbs in Hq. injection Hq as <-.
  eexists. split; [apply Hbs|].
  apply elem_of_answers in Hr as (id & d & Hd & Hv & ->).
  cbn [make_row row_document_id] in Hid. subst id.
  match goal with
  | |- context [answers _ ?st _] => set (s' := st)
  end.
  assert (make_row s' document_id (set_archived false d)
            ∈ answers strftime_Y s' bs) as Hin.
  { apply elem_of_answers. exists document_id, (set_archived false d).
    split; [|split; [|done]].
    - cbn [s' Documents]. by rewrite lookup_alter_eq, Hd.
    - by rewrite (where_value_ignores_archived strftime_Y s s'). }
  intros show_archived.
  exists (make_row s' document_id (set_archived false d)). split; [|done].
  destruct show_archived; cbn [visible_results]; [done|].
  by apply list_elem_of_filter.
Qed.

End MoreSearchProperties.

(** * Ingestion, continued *)

Section MoreIngestionProperties.

Variable hashlib_md5 : list Byte.byte -> N.
Variable hashlib_sha256 : list Byte.byte -> N.
Variable magic_from_buffer : list Byte.byte -> string.

(** X13: [compute_sha256] hashes what lies between the read position and the
    end of the stream, nothing before it, and leaves the stream rewound to
    its start. *)
Theorem compute_sha256_from_position (file : stream) :
  compute_sha256 hashlib_sha256 file =
  (hex_digits 64 (hashlib_sha256 (drop (position file) (buffer file))),
   {| buffer := buffer file; position := 0 |}).
Proof.
  unfold compute_sha256.
  rewrite update_chunks_reads_all.
  - done.
  - apply Nat.lt_0_succ.
  - rewrite length_drop. lia.
Qed.

Lemma store_files_tables document_id files s :
  let s' := fold_left (store_file hashlib_sha256 magic_from_buffer document_id)
              files s in
  Documents s' = Documents s /\ Tags s' = Tags s.
Proof.
  revert s. induction files as [|upload files IH]; intros s; [done|].
  cbn [fold_left].
  destruct (IH (store_file hashlib_sha256 magic_from_buffer document_id s upload))
    as [-> ->].
  by rewrite store_file_effect.
Qed.

Lemma store_tags_tags document_id tags s :
  forall d t,
    (d, t) ∈ Tags (fold_left (store_tag document_id) tags s)
    <-> (d, t) ∈ Tags s \/ (d = document_id /\ t <> "" /\ t ∈ tags).
Proof.
  revert s. induction tags as [|tag tags IH]; intros s d t; cbn [fold_left].
  - rewrite elem_of_nil. tauto.
  - rewrite IH, elem_of_cons. unfold store_tag.
    destruct (String.eqb_spec tag "") as [->|Hne].
    + intuition congruence.
    + cbn [Tags]. rewrite elem_of_union, elem_of_singleton, pair_equal_spec.
      intuition (subst; auto).
Qed.

(** The store in which [add_document] runs its two loops. *)
Lemma add_document_Ok now1 now2 title notes tags files s document_id s' :
  add_document hashlib_md5 hashlib_sha256 magic_from_buffer
    now1 now2 title notes tags files s = Ok (document_id, s') ->
  document_id = new_document_id hashlib_md5 title now1
  /\ Documents s !! document_id = None
  /\ s' = fold_left (store_tag document_id)
            (if String.eqb tags "" then []
             else Str.strip <$> Str.split_on "," tags)
            (fold_left (store_file hashlib_sha256 magic_from_buffer document_id)
               files
               {| Documents :=
                    <[document_id :=
                        {| title := title; notes := notes;
                           created_at := now2; archived := false |}]>
                      (Documents s);
                  Files := Files s; Tags := Tags s; storage := storage s |}).
Proof.
  unfold add_document.
  destruct (Documents s !! _) eqn:Hfresh; [done|]. by intros [= <- <-].
Qed.

Lemma add_document_documents now1 now2 title notes tags files s document_id s' :
  add_document hashlib_md5 hashlib_sha256 magic_from_buffer
    now1 now2 title notes tags files s = Ok (document_id, s') ->
  Documents s' =
  <[document_id := {| title := title; notes := notes;
                      created_at := now2; archived := false |}]>
    (Documents s).
Proof.
  intros (_ & _ & ->)%add_document_Ok.
  match goal with
  | |- context [fold_left (store_tag _) ?l ?st] =>
      destruct (store_tags_effect document_id l st) as (-> & _ & _)
  end.
  match goal with
  | |- context [fold_left (store_file _ _ _) files ?st] =>
      by destruct (store_files_tables document_id files st) as [-> _]
  end.
Qed.

Lemma add_document_tags_iff now1 now2 title notes tags files s document_id s' :
  add_document hashlib_md5 hashlib_sha256 magic_from_buffer
    now1 now2 title notes tags files s = Ok (document_id, s') ->
  forall d t,
    (d, t) ∈ Tags s'
    <-> (d, t) ∈ Tags s
        \/ (d = document_id /\ t <> ""
            /\ t ∈ Str.strip <$> Str.split_on "," tags).
Proof.
  intros (_ & _ & ->)%add_document_Ok d t.
  rewrite store_tags_tags.
  match goal with
  | |- context [fold_left (store_file _ _ _) files ?st] =>
      destruct (store_files_tables document_id files st) as [_ ->]
  end.
  cbn [Tags]. apply or_iff_compat_l.
  destruct (String.eqb_spec tags "") as [->|_]; [|done].
  split; [by intros (_ & _ & ?%elem_of_nil)|].
  intros (_ & Hne & Ht). cbn in Ht. apply list_elem_of_singleton in Ht. done.
Qed.

(** X14: a successful [add_document] returns an id that was not in
    [Documents], inserts under it a row with the given title and notes, the
    second clock reading as [created_at] and [archived] false, and leaves
    every other document as it was. *)
Theorem add_document_inserts_document (now1 now2 title notes tags : string)
  (files : list UploadedFile) (s s' : Store) (document_id : string) :
  add_document hashlib_md5 hashlib_sha256 magic_from_buffer
    now1 now2 title notes tags files s = Ok (document_id, s') ->
  Documents s !! document_id = None
  /\ Documents s' !! document_id
     = Some {| title := title; notes := notes;
               created_at := now2; archived := false |}
  /\ forall other, other <> document_id ->
       Documents s' !! other = Documents s !! other.
Proof.
  intros Hadd.
  pose proof (add_document_Ok _ _ _ _ _ _ _ _ _ Hadd) as (_ & Hfresh & _).
  rewrite (add_document_documents _ _ _ _ _ _ _ _ _ Hadd).
  split; [done|]. split; [apply lookup_insert_eq|].
  intros other Hne. by apply lookup_insert_ne.
Qed.

(** X15: after a successful [add_document] the table [Tags] holds what it
    held before and, for the new document, exactly the comma-separated
    pieces of the tags text, trimmed, without the empty ones; a piece that
    occurs twice gives one row. *)
Theorem add_document_tags (now1 now2 title notes tags : string)
  (files : list UploadedFile) (s s' : Store) (document_id : string) :
  add_document hashlib_md5 hashlib_sha256 magic_from_buffer
    now1 now2 title notes tags files s = Ok (document_id, s') ->
  (forall d t, (d, t) ∈ Tags s -> (d, t) ∈ Tags s')
  /\ forall t,
       (document_id, t) ∈ Tags s' <->
       (document_id, t) ∈ Tags s
       \/ (t <> "" /\ exists piece, piece ∈ Str.split_on "," tags
                                    /\ t = Str.strip piece).
Proof.
  intros Hadd. split.
  - intros d t Hin. apply (add_document_tags_iff _ _ _ _ _ _ _ _ _ Hadd). by left.
  - intros t. rewrite (add_document_tags_iff _ _ _ _ _ _ _ _ _ Hadd).
    rewrite list_elem_of_fmap. apply or_iff_compat_l. split.
    + intros (_ & Hne & piece & -> & Hin). eauto.
    + intros (Hne & piece & Hin & ->). eauto.
Qed.

(** X16: the rows that [add_document] appends to [Files], one per upload and
    in the order of the uploads, carry the new document id, the name of the
    upload, the number of its bytes, and the MIME type sniffed from its
    first 1024 bytes; the rows that were there stay in front. *)
Theorem add_document_file_rows (now1 now2 title notes tags : string)
  (files : list UploadedFile) (s s' : Store) (document_id : string) :
  add_document hashlib_md5 hashlib_sha256 magic_from_buffer
    now1 now2 title notes tags files s = Ok (document_id, s') ->
  length (Files s') = length (Files s) + length files
  /\ (forall i, i < length (Files s) -> Files s' !! i = Files s !! i)
  /\ forall i upload, files !! i = Some upload ->
       exists row,
         Files s' !! (length (Files s) + i) = Some row
         /\ file_document_id row = document_id
         /\ filename row = name upload
         /\ filesize row = N.of_nat (length (content upload))
         /\ mimetype row = magic_from_buffer (take 1024 (content upload)).
Proof.
  intros (_ & _ & ->)%add_document_Ok.
  match goal with
  | |- context [fold_left (store_file _ _ _) files ?st] => set (s0 := st)
  end.
  destruct (store_tags_effect document_id
              (if String.eqb tags "" then []
               else Str.strip <$> Str.split_on "," tags)
              (fold_left (store_file hashlib_sha256 magic_from_buffer document_id)
                 files s0)) as (_ & -> & _).
  destruct (store_files_rows hashlib_sha256 magic_from_buffer document_id files s0)
    as (rows & -> & Hlen & Hrows).
  cbn [s0 Files]. split; [by rewrite length_app, Hlen|].
  split; [intros i Hi; by rewrite lookup_app_l|].
  intros i upload Hi. destruct (Hrows i upload Hi) as [fs Hrow].
  exists (file_row hashlib_sha256 magic_from_buffer document_id fs upload).
  split; [|done].
  rewrite lookup_app_r by lia.
  by replace (length (Files s) + i - length (Files s)) with i by lia.
Qed.

(** X17: a second [add_document] with the same title at the same first clock
    reading derives the same id and fails with [IntegrityError]. *)
Theorem add_document_twice_collides (now1 now2 title notes tags : string)
  (files : list UploadedFile) (s s' : Store) (document_id : string)
  (now2' notes' tags' : string) (files' : list UploadedFile) :
  add_document hashlib_md5 hashlib_sha256 magic_from_buffer
    now1 now2 title notes tags files s = Ok (document_id, s') ->
  add_document hashlib_md5 hashlib_sha256 magic_from_buffer
    now1 now2' title notes' tags' files' s' = Raise IntegrityError.
Proof.
  intros Hadd.
  pose proof (add_document_Ok _ _ _ _ _ _ _ _ _ Hadd) as (Hid & _ & _).
  apply add_document_documents in Hadd as Hdocs.
  unfold add_document. rewrite <- Hid, Hdocs, lookup_insert_eq. done.
Qed.

End MoreIngestionProperties.

Section StoreInvariants.

Variable hashlib_md5 : list Byte.byte -> N.
Variable hashlib_sha256 : list Byte.byte -> N.
Variable magic_from_buffer : list Byte.byte -> string.

Lemma add_document_files now1 now2 title notes tags files s document_id s' :
  add_document hashlib_md5 hashlib_sha256 magic_from_buffer
    now1 now2 title notes tags files s = Ok (document_id, s') ->
  (exists rows,
     Files s' = Files s ++ rows
     /\ forall r, r ∈ rows ->
          exists fs upload,
            upload ∈ files
            /\ r = file_row hashlib_sha256 magic_from_buffer document_id fs upload)
  /\ storage s' = fold_left (write_upload document_id) files (storage s).
Proof.
  intros (_ & _ & ->)%add_document_Ok.
  match goal with
  | |- context [fold_left (store_tag _) ?l ?st] =>
      destruct (store_tags_effect document_id l st) as (_ & -> & ->)
  end.
  rewrite store_files_storage. split; [|done].
  match goal with
  | |- context [fold_left (store_file _ _ _) files ?st] =>
      destruct (store_files_rows hashlib_sha256 magic_from_buffer
                  document_id files st) as (rows & -> & Hlen & Hrows)
  end.
  exists rows. split; [done|].
  intros r [i Hi]%list_elem_of_lookup.
  assert (i < length files) as Hlt.
  { rewrite <- Hlen. by apply lookup_lt_Some in Hi. }
  destruct (lookup_lt_is_Some_2 files i Hlt) as [upload Hu].
  destruct (Hrows i upload Hu) as [fs Hrow].
  exists fs, upload. split; [by apply list_elem_of_lookup; eauto|congruence].
Qed.

Lemma writes_frame document_id path files (m : gmap string (list Byte.byte)) :
  (forall upload, upload ∈ files ->
     storage_path document_id (name upload) <> path) ->
  fold_left (write_upload document_id) files m !! path = m !! path.
Proof.
  revert m. induction files as [|upload files IH]; intros m Hne; [done|].
  cbn [fold_left]. rewrite IH.
  - unfold write_upload. apply lookup_insert_ne. apply Hne. by left.
  - intros u Hu. apply Hne. by right.
Qed.

Lemma writes_keep_files document_id path files
  (m : gmap string (list Byte.byte)) :
  is_Some (m !! path) ->
  is_Some (fold_left (write_upload document_id) files m !! path).
Proof.
  revert m. induction files as [|upload files IH]; intros m Hm; [done|].
  cbn [fold_left]. apply IH. unfold write_upload.
  destruct (decide (storage_path document_id (name upload) = path)) as [->|Hne].
  - by rewrite lookup_insert_eq.
  - by rewrite lookup_insert_ne.
Qed.

Lemma writes_create_files document_id upload files
  (m : gmap string (list Byte.byte)) :
  upload ∈ files ->
  is_Some (fold_left (write_upload document_id) files m
             !! storage_path document_id (name upload)).
Proof.
  intros (l1 & l2 & ->)%list_elem_of_split.
  rewrite fold_left_app. cbn [fold_left]. apply writes_keep_files.
  unfold write_upload at 1. by rewrite lookup_insert_eq.
Qed.

(** X19: [add_document] writes only under its own document id: whatever
    another document (another md5 id) has in the storage directory is still
    there, unchanged, afterwards. *)
Theorem add_document_keeps_other_documents_files
  (now1 now2 title notes tags : string) (files : list UploadedFile)
  (s s' : Store) (document_id : string) (title' now' filename' : string) :
  add_document hashlib_md5 hashlib_sha256 magic_from_buffer
    now1 now2 title notes tags files s = Ok (document_id, s') ->
  new_document_id hashlib_md5 title' now' <> document_id ->
  storage s' !! storage_path (new_document_id hashlib_md5 title' now') filename'
  = storage s !! storage_path (new_document_id hashlib_md5 title' now') filename'.
Proof.
  intros Hadd Hne.
  pose proof (add_document_Ok _ _ _ _ _ _ _ _ _ _ _ _ Hadd) as (Hid & _ & _).
  destruct (add_document_files _ _ _ _ _ _ _ _ _ Hadd) as [_ ->].
  apply writes_frame. intros upload _ Hpath. apply Hne. symmetry.
  unfold storage_path in Hpath. apply os_path_join_storage_inj in Hpath.
  eapply append_same_length_head; [|exact Hpath].
  rewrite Hid. unfold new_document_id. by rewrite !length_hex_digits.
Qed.

(** X20: if every row of [Tags] and [Files] names a stored document, this is
    still so after [add_document] and after [toggle_archive]. *)
Theorem referential_integrity_preserved (s : Store) :
  referential_integrity s ->
  (forall now1 now2 title notes tags files document_id s',
     add_document hashlib_md5 hashlib_sha256 magic_from_buffer
       now1 now2 title notes tags files s = Ok (document_id, s') ->
     referential_integrity s')
  /\ (forall document_id archive s',
        toggle_archive document_id archive s = Ok s' ->
        referential_integrity s').
Proof.
  intros [Htags Hfiles]. split.
  - intros now1 now2 title notes tags files id s' Hadd.
    pose proof (add_document_documents _ _ _ _ _ _ _ _ _ _ _ _ Hadd) as Hdocs.
    assert (forall d, is_Some (Documents s !! d) -> is_Some (Documents s' !! d))
      as Hkeep.
    { intros d Hd. rewrite Hdocs.
      destruct (decide (id = d)) as [->|?];
        [by rewrite lookup_insert_eq|by rewrite lookup_insert_ne]. }
    assert (is_Some (Documents s' !! id)) as Hnew
      by (by rewrite Hdocs, lookup_insert_eq).
    split.
    + intros d t [Hold|(-> & _)]%(add_document_tags_iff _ _ _ _ _ _ _ _ _ _ _ _ Hadd);
        [by eapply Hkeep, Htags|done].
    + destruct (add_document_files _ _ _ _ _ _ _ _ _ Hadd)
        as [(rows & -> & Hrows) _].
      intros f [Hold|Hin]%elem_of_app; [by apply Hkeep, Hfiles|].
      by destruct (Hrows f Hin) as (fs & upload & _ & ->).
  - intros id archive s' [= <-]. split; cbn [Documents Tags Files].
    + intros d t Hin. rewrite lookup_alter.
      case_decide; [subst; apply fmap_is_Some|]; by eapply Htags.
    + intros f Hin. rewrite lookup_alter.
      case_decide as Hd; [rewrite Hd; apply fmap_is_Some|]; by apply Hfiles.
Qed.

(** X21: if every row of [Files] points to a file in the storage directory,
    this is still so after [add_document]. *)
Theorem stored_files_exist_preserved (now1 now2 title notes tags : string)
  (files : list UploadedFile) (s s' : Store) (document_id : string) :
  stored_files_exist s ->
  add_document hashlib_md5 hashlib_sha256 magic_from_buffer
    now1 now2 title notes tags files s = Ok (document_id, s') ->
  stored_files_exist s'.
Proof.
  intros Hs Hadd.
  destruct (add_document_files _ _ _ _ _ _ _ _ _ Hadd)
    as [(rows & HF & Hrows) HS].
  intros f. rewrite HF, HS. intros [Hold|Hin]%elem_of_app.
  - by apply writes_keep_files, Hs.
  - destruct (Hrows f Hin) as (fs & upload & Hu & ->).
    cbn [file_row local_path]. by apply writes_create_files.
Qed.

End StoreInvariants.

(** ** Archiving, composed *)

(** X22: two calls of [toggle_archive] on one document leave what the second
    call alone leaves: the last flag wins, and a repeated call changes
    nothing more. *)
Theorem toggle_archive_last_flag_wins (document_id : string)
  (first second : bool) (s : Store) :
  bind_result (toggle_archive document_id first s)
              (toggle_archive document_id second)
  = toggle_archive document_id second s.
Proof.
  unfold toggle_archive. cbn [bind_result Documents Files Tags storage].
  by rewrite alter_alter_eq.
Qed.

(** X23: calls of [toggle_archive] on two different documents can be
    exchanged. *)
Theorem toggle_archive_commutes (id1 id2 : string) (flag1 flag2 : bool)
  (s : Store) :
  id1 <> id2 ->
  bind_result (toggle_archive id1 flag1 s) (toggle_archive id2 flag2)
  = bind_result (toggle_archive id2 flag2 s) (toggle_archive id1 flag1).
Proof.
  intros Hne. unfold toggle_archive.
  cbn [bind_result Documents Files Tags storage].
  do 2 f_equal. by apply alter_alter_ne.
Qed.

(** ** Adding, then searching *)

Lemma tokens_word w : no_space w -> w <> "" -> tokens w = [w].
Proof.
  intros Hw Hne. unfold tokens, Str.strip.
  rewrite <- (append_empty_r w) at 1. rewrite lstrip_word by done.
  rewrite append_empty_r, rstrip_word by done.
  rewrite <- (append_empty_r w) at 1.
  rewrite (re_split_spaces_word false w "" "" []) by done.
  by rewrite append_empty_r.
Qed.

Lemma tag_token_alone t :
  no_space t -> tokens ("tag:" ++ t)%string = [("tag:" ++ t)%string].
Proof.
  intros Ht. apply tokens_word; [|done].
  change ("tag:" ++ t)%string
    with (String "t" (String "a" (String "g" (String ":" t)))).
  unfold no_space in *. cbn [list_ascii_of_string]. by repeat constructor.
Qed.

Section AddThenSearch.

Variable strftime_Y : string -> option string.
Variable hashlib_md5 : list Byte.byte -> N.
Variable hashlib_sha256 : list Byte.byte -> N.
Variable magic_from_buffer : list Byte.byte -> string.

Lemma tag_query_answers s query t :
  tokens query = [("tag:" ++ t)%string] ->
  search_documents strftime_Y s query
  = Ok (answers strftime_Y s [(AND, TagIs [t])]).
Proof.
  intros Htok. rewrite search_documents_outcome, Htok.
  change [("tag:" ++ t)%string] with (String.append "tag:" <$> [t]).
  by rewrite fold_classify_tag_tokens.
Qed.

(** X18: a document added with a tag that is not empty and has no white
    space in it is found under that tag: the search for [tag:t] answers
    with a row that shows the new id, the title, the notes, the creation
    time and [archived] 0.  (A tag with white space inside is stored all
    the same, but no single token can name it: see X26.) *)
Theorem added_document_found_by_tag (now1 now2 title notes tags : string)
  (files : list UploadedFile) (s s' : Store) (document_id : string)
  (piece : string) :
  add_document hashlib_md5 hashlib_sha256 magic_from_buffer
    now1 now2 title notes tags files s = Ok (document_id, s') ->
  piece ∈ Str.split_on "," tags ->
  Str.strip piece <> "" ->
  no_space (Str.strip piece) ->
  exists rows r,
    search_documents strftime_Y s' ("tag:" ++ Str.strip piece)%string = Ok rows
    /\ r ∈ rows
    /\ row_document r
       = (document_id, {| title := title; notes := notes;
                          created_at := now2; archived := false |}).
Proof.
  intros Hadd Hpiece Hne Hword.
  set (d := {| title := title; notes := notes;
               created_at := now2; archived := false |}).
  exists (answers strftime_Y s' [(AND, TagIs [Str.strip piece])]),
         (make_row s' document_id d).
  split; [by apply tag_query_answers, tag_token_alone|].
  split; [|apply row_document_make_row].
  apply elem_of_answers. exists document_id, d.
  split; [|split; [|done]].
  - rewrite (add_document_documents _ _ _ _ _ _ _ _ _ _ _ _ Hadd).
    apply lookup_insert_eq.
  - cbn [where_value holds existsb andb orb]. rewrite orb_false_r.
    apply bool_decide_eq_true.
    apply (add_document_tags_iff _ _ _ _ _ _ _ _ _ _ _ _ Hadd).
    right. split; [done|]. split; [done|].
    apply list_elem_of_fmap. by exists piece.
Qed.

End AddThenSearch.

Lemma re_split_spaces_no_space in_run s :
  Forall no_space (Str.re_split_spaces in_run s).
Proof.
  revert in_run. induction s as [|c s IH]; intros in_run;
    cbn [Str.re_split_spaces].
  - repeat constructor.
  - destruct (Str.isspace c) eqn:Hc.
    + destruct in_run; [apply IH|]. constructor; [constructor|apply IH].
    + specialize (IH false).
      destruct (Str.re_split_spaces false s) as [|piece pieces].
      * repeat constructor. done.
      * apply Forall_cons in IH as [Hp Hps].
        constructor; [|done]. by constructor.
Qed.

Lemma drop_no_space n w : no_space w -> no_space (Str.drop n w).
Proof.
  revert w. induction n as [|n IH]; intros w Hw; [by destruct w|].
  destruct w as [|c w]; [done|]. cbn [Str.drop].
  apply IH. by apply Forall_cons in Hw as [_ ?].
Qed.

(** X26: no token of a query, and so no value of a [tag:], [year:] or
    [mime:] token and no excluded value, has white space in it: a stored
    tag with white space inside is never the value of a [tag:] token. *)
Theorem query_values_have_no_space (query : string) (k : kind) (n : nat) :
  Forall no_space (tokens query)
  /\ Forall no_space (values_of k n query).
Proof.
  assert (Forall no_space (tokens query)) as Htok
    by apply re_split_spaces_no_space.
  split; [done|].
  unfold values_of. apply Forall_fmap, Forall_forall.
  intros t [_ Hin]%list_elem_of_filter.
  apply drop_no_space. by eapply Forall_forall in Htok.
Qed.

(** ** The Tags page *)

Lemma rows_with_tag_insert (tag : string) (row : string * string)
  (X : gset (string * string)) :
  row ∉ X ->
  size (filter (fun r => r.2 = tag) ({[ row ]} ∪ X))
  = (if decide (row.2 = tag) then 1 else 0)
    + size (filter (fun r => r.2 = tag) X).
Proof.
  intros Hfresh. rewrite filter_union_L, filter_singleton_L.
  destruct (decide (row.2 = tag)) as [Htag|Htag].
  - rewrite size_union.
    + by rewrite size_singleton.
    + intros r ->%elem_of_singleton [_ Hin]%elem_of_filter. done.
  - by rewrite union_empty_l_L.
  - apply _.
  - apply _.
Qed.

Lemma tag_counts_lookup s tag :
  tag_counts s !! tag =
  match size (rows_with_tag tag s) with
  | 0 => None
  | n => Some n
  end.
Proof.
  unfold tag_counts, rows_with_tag.
  apply (set_fold_ind_L
           (fun counts X =>
              counts !! tag =
              match size (filter (fun r => r.2 = tag) X) with
              | 0 => None
              | n => Some n
              end)).
  - rewrite lookup_empty.
    assert (filter (fun r : string * string => r.2 = tag)
              (∅ : gset (string * string)) = ∅) as ->
      by (apply filter_empty_L; apply _).
    by rewrite size_empty.
  - intros [d t] X counts Hfresh IH. rewrite rows_with_tag_insert by done.
    unfold count_row. cbn [snd].
    case_decide as Htag.
    + subst t. rewrite lookup_insert_eq, IH.
      by destruct (size (filter _ X)).
    + by rewrite lookup_insert_ne.
Qed.

(** X24: the Tags page lists a tag exactly when some row of [Tags] has it,
    and its count is the number of those rows, one per document that
    carries the tag. *)
Theorem tag_counts_count_documents (s : Store) (tag : string) (n : nat) :
  tag_counts s !! tag = Some n
  <-> 0 < n /\ n = size (rows_with_tag tag s).
Proof.
  rewrite tag_counts_lookup.
  destruct (size (rows_with_tag tag s)) as [|m]; split;
    try (intros [= <-]); try (intros [? ->]); try done; try lia.
Qed.

Section TagCounts.

Variable hashlib_md5 : list Byte.byte -> N.
Variable hashlib_sha256 : list Byte.byte -> N.
Variable magic_from_buffer : list Byte.byte -> string.

(** X25: in a store whose [Tags] rows all name stored documents, adding a
    document raises by one the count of each of its tags and leaves every
    other count as it was. *)
Theorem add_document_tag_counts (now1 now2 title notes tags : string)
  (files : list UploadedFile) (s s' : Store) (document_id tag : string) :
  referential_integrity s ->
  add_document hashlib_md5 hashlib_sha256 magic_from_buffer
    now1 now2 title notes tags files s = Ok (document_id, s') ->
  tag_counts s' !! tag =
  if decide (tag <> "" /\ tag ∈ Str.strip <$> Str.split_on "," tags)
  then Some (S (default 0 (tag_counts s !! tag)))
  else tag_counts s !! tag.
Proof.
  intros [Hri _] Hadd.
  pose proof (add_document_Ok _ _ _ _ _ _ _ _ _ _ _ _ Hadd) as (_ & Hfresh & _).
  pose proof (add_document_tags_iff _ _ _ _ _ _ _ _ _ _ _ _ Hadd) as Htags.
  assert ((document_id, tag) ∉ Tags s) as Hnew.
  { intros [d Hd]%Hri. congruence. }
  rewrite !tag_counts_lookup. unfold rows_with_tag.
  case_decide as Hcase.
  - assert (filter (fun r : string * string => r.2 = tag) (Tags s')
            = {[ (document_id, tag) ]}
              ∪ filter (fun r : string * string => r.2 = tag) (Tags s)) as ->.
    { apply set_eq. intros [d t].
      rewrite elem_of_union, !elem_of_filter, elem_of_singleton, Htags,
        pair_equal_spec. cbn [snd]. intuition (subst; auto). }
    rewrite size_union, size_singleton.
    + by destruct (size (filter _ (Tags s))).
    + intros r ->%elem_of_singleton [_ Hin]%elem_of_filter. done.
  - assert (filter (fun r : string * string => r.2 = tag) (Tags s')
            = filter (fun r : string * string => r.2 = tag) (Tags s)) as ->;
      [|done].
    apply set_eq. intros [d t].
    rewrite !elem_of_filter, Htags. cbn [snd]. intuition (subst; tauto).
Qed.

End TagCounts.
(** * Closed examples *)

Example toggle_archive_d1 :
  toggle_archive "d1" true two_docs = Ok two_docs_d1_archived.
Proof. reflexivity. Qed.

(** C1: the exclusion is not enforced.  In ["x -draft"] the two parameters
    of the literal [x] come first in [params] while its placeholders come
    last in the text, so [NOT LIKE] is bound to [%x%] and [LIKE] to
    [%draft%]: the search returns the document titled "draft".  With two
    exclusion tokens four parameters meet two placeholders and the search
    raises [ProgrammingError]. *)
Theorem exclusion_bound_to_wrong_parameters :
  (exists r,
     search_documents year_prefix two_docs "x -draft" = Ok [r]
     /\ row_document_id r = "d1"
     /\ Str.contains "draft" (row_title r) = true)
  /\ search_documents year_prefix two_docs "-draft -plan"
     = Raise ProgrammingError.
Proof. split; [eexists; split; [|split]|]; by vm_compute. Qed.

(** C8: the stored hash does not survive a second upload of the same name.
    When one call of [add_document] gets two uploads named "report.pdf"
    with different bytes, both rounds of the loop open the same
    [local_path] for writing: on return the first row still records the
    digest of the first upload, while the file at its [local_path] holds
    the bytes of the second.  This holds whatever the hash functions are. *)
Theorem same_name_upload_replaces_hashed_bytes
  (hashlib_md5 hashlib_sha256 : list Byte.byte -> N)
  (magic_from_buffer : list Byte.byte -> string) :
  exists id s' row,
    add_document hashlib_md5 hashlib_sha256 magic_from_buffer noon noon
      "Report" "" "" [report_pdf; report_pdf_again] empty_store = Ok (id, s')
    /\ Files s' !! 0 = Some row
    /\ local_path row = storage_path id "report.pdf"
    /\ sha256 row = hex_digits 64 (hashlib_sha256 (content report_pdf))
    /\ storage s' !! local_path row = Some (content report_pdf_again)
    /\ content report_pdf_again <> content report_pdf.
Proof.
  unfold add_document. cbn [empty_store Documents]. rewrite lookup_empty.
  eexists _, _, _. split; [reflexivity|].
  cbn [String.eqb fold_left]. rewrite !store_file_effect.
  cbn [Files storage app lookup list_lookup file_row local_path sha256].
  split; [reflexivity|]. split; [reflexivity|]. split; [reflexivity|].
  split; [|discriminate].
  unfold write_upload. change (name report_pdf_again) with (name report_pdf).
  apply lookup_insert_eq.
Qed.

(** C2, as stated, fails: [add_document] called with an empty title and no
    file raises nothing and inserts the [Documents] row. *)
Lemma add_document_accepts_empty_input :
  exists id s',
    add_document toy_digest toy_digest toy_magic noon noon "" "" "" []
      empty_store = Ok (id, s')
    /\ Documents s' !! id
       = Some {| title := ""; notes := ""; created_at := noon;
                 archived := false |}.
Proof. eexists _, _. split; by vm_compute. Qed.

Lemma add_form_skips_incomplete_witness :
  ("" = "" \/ [report_pdf] = [])
  /\ add_form toy_digest toy_digest toy_magic true noon noon
       "" "notes" "work" [report_pdf] two_docs = Ok two_docs.
Proof.
  split; [by left|].
  apply (add_form_skips_incomplete toy_digest toy_digest toy_magic
           true noon noon "" "notes" "work" [report_pdf] two_docs).
  by left.
Defined.

Lemma tag_tokens_return_union_witness :
  exists rows,
    search_documents year_prefix two_docs "tag:work tag:personal" = Ok rows
    /\ NoDup (row_document_id <$> rows)
    /\ forall id,
         (exists r, r ∈ rows /\ row_document_id r = id)
         <-> (is_Some (Documents two_docs !! id)
              /\ exists v, v ∈ ["work"; "personal"] /\ (id, v) ∈ Tags two_docs).
Proof.
  apply (tag_tokens_return_union year_prefix two_docs
           "tag:work tag:personal" ["work"; "personal"]).
  - discriminate.
  - by vm_compute.
Defined.

(** C5, as stated, fails: a repeated literal term is a syntax error, a
    repeated exclusion a binding error, and next to a literal term even a
    repeated [tag:] token changes the rows. *)
Lemma repeated_token_changes_outcome :
  search_documents year_prefix two_docs "plan" <>
    search_documents year_prefix two_docs "plan plan"
  /\ search_documents year_prefix two_docs "-draft" <>
       search_documents year_prefix two_docs "-draft -draft"
  /\ search_documents year_prefix pattern_tagged "x tag:a" <>
       search_documents year_prefix pattern_tagged "x tag:a tag:a".
Proof. repeat split; by vm_compute. Qed.

Lemma repeated_group_token_idempotent_witness :
  search_documents year_prefix two_docs "tag:work tag:work -draft year:2023"
  = search_documents year_prefix two_docs "tag:work -draft year:2023".
Proof.
  apply (repeated_group_token_idempotent year_prefix two_docs
           "tag:work -draft year:2023" "tag:work tag:work -draft year:2023"
           ["tag:work"] ["-draft"; "year:2023"] "tag:work").
  - by vm_compute.
  - by vm_compute.
  - by left.
  - by left.
  - repeat constructor; by vm_compute.
Defined.

Lemma storage_paths_of_documents_distinct_witness :
  storage_path (new_document_id toy_digest "a" noon) "report.pdf"
  <> storage_path (new_document_id toy_digest "ab" noon) "report.pdf".
Proof.
  apply (storage_paths_of_documents_distinct toy_digest
           "a" noon "ab" noon "report.pdf" "report.pdf").
  by vm_compute.
Defined.

Lemma stored_sha256_matches_written_bytes_witness :
  match add_document toy_digest toy_digest toy_magic noon noon
          "Report" "" "work, tax" [report_pdf; report_pdf] empty_store with
  | Ok (id, s') =>
      exists row,
        Files s' !! 0 = Some row
        /\ sha256 row = hex_digits 64 (toy_digest (content report_pdf))
        /\ storage (fold_left (store_file toy_digest toy_magic id)
                      [report_pdf] empty_store)
             !! local_path row = Some (content report_pdf)
  | Raise _ => False
  end.
Proof.
  destruct (add_document toy_digest toy_digest toy_magic noon noon
              "Report" "" "work, tax" [report_pdf; report_pdf] empty_store)
    as [[id s']|e] eqn:Hadd; [|by vm_compute in Hadd].
  destruct (stored_sha256_matches_written_bytes toy_digest toy_digest toy_magic
              _ _ _ _ _ _ _ _ _ Hadd) as (rows & HF & _ & Hrows).
  destruct (Hrows 0 report_pdf eq_refl) as (row & H0 & _ & _ & Hsha & Hdisk & _).
  exists row. rewrite HF. cbn [Files empty_store app]. by repeat split.
Defined.

Lemma search_ignores_archived_witness :
  same_up_to_archived (fun _ => true)
    (search_documents year_prefix two_docs "tag:work")
    (search_documents year_prefix two_docs_d1_archived "tag:work").
Proof.
  apply (search_ignores_archived year_prefix two_docs two_docs_d1_archived
           (fun _ => true) "tag:work"); [done|done|].
  intros id. cbn [two_docs_d1_archived Documents two_docs].
  rewrite lookup_alter. case_decide as Hd1; [by subst|].
  rewrite lookup_insert_ne by done.
  destruct (decide (id = "d2")) as [->|Hd2]; [done|].
  by rewrite lookup_insert_ne, lookup_empty.
Defined.

(** * Closed examples of the further properties *)

Lemma tokens_join_words_witness :
  tokens (Str.join " " ["tag:work"; "-draft"]) = ["tag:work"; "-draft"].
Proof.
  apply (tokens_join_words ["tag:work"; "-draft"]).
  - discriminate.
  - repeat constructor; by vm_compute.
Defined.

Lemma blank_query_is_empty_query_witness :
  search_documents year_prefix two_docs "   "
  = search_documents year_prefix two_docs "".
Proof.
  apply (blank_query_is_empty_query year_prefix two_docs "   ").
  repeat constructor.
Defined.

Lemma search_rows_are_stored_documents_witness :
  Sorted later_or_same (rows_of (search_documents year_prefix two_docs ""))
  /\ NoDup (row_document_id
              <$> rows_of (search_documents year_prefix two_docs "")).
Proof.
  destruct (search_rows_are_stored_documents year_prefix two_docs ""
              (rows_of (search_documents year_prefix two_docs "")))
    as (Hsorted & Hnodup & _); [by vm_compute|done].
Defined.

Lemma two_exclusions_never_answer_witness :
  exists e, search_documents year_prefix two_docs "-draft -plan" = Raise e.
Proof.
  apply (two_exclusions_never_answer year_prefix two_docs "-draft -plan").
  vm_compute. lia.
Defined.

Lemma binding_error_needs_two_exclusions_witness :
  2 <= count_kind Exclusion "tag:work -draft -plan".
Proof.
  apply (binding_error_needs_two_exclusions year_prefix two_docs
           "tag:work -draft -plan").
  by vm_compute.
Defined.

Lemma literal_keyword_count_mismatch_witness :
  search_documents year_prefix two_docs "plan budget" = Raise OperationalError.
Proof.
  apply (literal_keyword_count_mismatch year_prefix two_docs "plan budget").
  - vm_compute. lia.
  - by vm_compute.
Defined.

Lemma group_tokens_select_witness :
  exists rows,
    search_documents year_prefix two_docs "year:2024 tag:personal -draft"
    = Ok rows.
Proof.
  destruct (group_tokens_select year_prefix two_docs
              "year:2024 tag:personal -draft") as (rows & Hq & _).
  - by vm_compute.
  - by vm_compute.
  - vm_compute. lia.
  - by exists rows.
Defined.



Lemma two_literal_terms_select_witness :
  exists rows,
    search_documents year_prefix two_docs "draft OR budget" = Ok rows.
Proof.
  destruct (two_literal_terms_select year_prefix two_docs
              "draft OR budget" "draft" "OR" "budget")
    as (rows & Hq & _); [by vm_compute..|by right|].
  by exists rows.
Defined.

Lemma archived_document_is_hidden_witness :
  Forall (fun r => row_document_id r <> "d1")
    (visible_results false
       (rows_of (search_documents year_prefix two_docs_d1_archived ""))).
Proof.
  apply Forall_forall.
  apply (archived_document_is_hidden year_prefix two_docs
           two_docs_d1_archived "d1" ""); by vm_compute.
Defined.

Lemma unarchived_document_passes_filter_witness :
  exists rows',
    search_documents year_prefix
      (rows_of_store (toggle_archive "d2" false two_docs)) "tag:personal"
    = Ok rows'
    /\ forall show_archived : bool,
         exists r', r' ∈ visible_results show_archived rows'
                    /\ row_document_id r' = "d2".
Proof.
  apply (unarchived_document_passes_filter year_prefix two_docs
           (rows_of_store (toggle_archive "d2" false two_docs))
           "d2" "tag:personal"
           (rows_of (search_documents year_prefix two_docs "tag:personal"))).
  - by vm_compute.
  - by vm_compute.
  - exists (make_row two_docs "d2" plan_doc).
    split; [vm_compute; by left|by vm_compute].
Defined.

Lemma with_report_added :
  add_document toy_digest toy_digest toy_magic noon noon
    "Report" "yearly" "work, tax ,,work" [report_pdf] two_docs
  = Ok (with_report.1, with_report.2).
Proof. by vm_compute. Qed.

Lemma two_docs_integrity : referential_integrity two_docs.
Proof.
  split.
  - intros d t Hin. cbn [two_docs Tags] in Hin.
    apply elem_of_union in Hin as [Hin|Hin];
      apply elem_of_singleton in Hin; injection Hin as -> ->;
      eexists; by vm_compute.
  - by intros f ?%elem_of_nil.
Qed.

Lemma add_document_inserts_document_witness :
  Documents two_docs !! with_report.1 = None
  /\ Documents with_report.2 !! with_report.1
     = Some {| title := "Report"; notes := "yearly"; created_at := noon;
               archived := false |}.
Proof.
  destruct (add_document_inserts_document toy_digest toy_digest toy_magic
              noon noon "Report" "yearly" "work, tax ,,work" [report_pdf]
              two_docs with_report.2 with_report.1 with_report_added)
    as (Hfresh & Hnew & _).
  by split.
Defined.

Lemma add_document_tags_witness :
  (with_report.1, "tax") ∈ Tags with_report.2
  /\ ("d1", "work") ∈ Tags with_report.2.
Proof.
  destruct (add_document_tags toy_digest toy_digest toy_magic
              noon noon "Report" "yearly" "work, tax ,,work" [report_pdf]
              two_docs with_report.2 with_report.1 with_report_added)
    as [Hold Hnew].
  split.
  - apply Hnew. right. split; [done|]. exists " tax ".
    split; [|by vm_compute]. vm_compute. right. by left.
  - apply Hold. cbn [two_docs Tags]. apply elem_of_union. left.
    by apply elem_of_singleton.
Defined.

Lemma add_document_file_rows_witness :
  length (Files with_report.2) = length (Files two_docs) + 1.
Proof.
  apply (add_document_file_rows toy_digest toy_digest toy_magic
           noon noon "Report" "yearly" "work, tax ,,work" [report_pdf]
           two_docs with_report.2 with_report.1 with_report_added).
Defined.

Lemma add_document_twice_collides_witness :
  add_document toy_digest toy_digest toy_magic noon "2024-06-01 12:00:05"
    "Report" "again" "" [] with_report.2 = Raise IntegrityError.
Proof.
  apply (add_document_twice_collides toy_digest toy_digest toy_magic
           noon noon "Report" "yearly" "work, tax ,,work" [report_pdf]
           two_docs with_report.2 with_report.1
           "2024-06-01 12:00:05" "again" "" [] with_report_added).
Defined.

Lemma added_document_found_by_tag_witness :
  exists rows r,
    search_documents year_prefix with_report.2 "tag:tax" = Ok rows
    /\ r ∈ rows
    /\ row_document r
       = (with_report.1, {| title := "Report"; notes := "yearly";
                            created_at := noon; archived := false |}).
Proof.
  apply (added_document_found_by_tag year_prefix toy_digest toy_digest toy_magic
           noon noon "Report" "yearly" "work, tax ,,work" [report_pdf]
           two_docs with_report.2 with_report.1 " tax "
           with_report_added).
  - vm_compute. right. by left.
  - by vm_compute.
  - repeat constructor.
Defined.

Lemma add_document_keeps_other_documents_files_witness :
  storage with_report.2
    !! storage_path (new_document_id toy_digest "Other" noon) "report.pdf"
  = storage two_docs
      !! storage_path (new_document_id toy_digest "Other" noon) "report.pdf".
Proof.
  apply (add_document_keeps_other_documents_files toy_digest toy_digest
           toy_magic noon noon "Report" "yearly" "work, tax ,,work"
           [report_pdf] two_docs with_report.2 with_report.1
           "Other" noon "report.pdf" with_report_added).
  by vm_compute.
Defined.

Lemma referential_integrity_preserved_witness :
  referential_integrity with_report.2.
Proof.
  destruct (referential_integrity_preserved toy_digest toy_digest toy_magic
              two_docs two_docs_integrity) as [Hadd _].
  exact (Hadd _ _ _ _ _ _ _ _ with_report_added).
Defined.

Lemma stored_files_exist_preserved_witness :
  stored_files_exist with_report.2.
Proof.
  apply (stored_files_exist_preserved toy_digest toy_digest toy_magic
           noon noon "Report" "yearly" "work, tax ,,work" [report_pdf]
           two_docs with_report.2 with_report.1).
  - by intros f ?%elem_of_nil.
  - exact with_report_added.
Defined.

Lemma toggle_archive_commutes_witness :
  bind_result (toggle_archive "d1" true two_docs) (toggle_archive "d2" false)
  = bind_result (toggle_archive "d2" false two_docs) (toggle_archive "d1" true).
Proof.
  apply (toggle_archive_commutes "d1" "d2" true false two_docs).
  discriminate.
Defined.

Lemma add_document_tag_counts_witness :
  tag_counts with_report.2 !! "work"
  = Some (S (default 0 (tag_counts two_docs !! "work"))).
Proof.
  rewrite (add_document_tag_counts toy_digest toy_digest toy_magic
             noon noon "Report" "yearly" "work, tax ,,work" [report_pdf]
             two_docs with_report.2 with_report.1 "work"
             two_docs_integrity with_report_added).
  by vm_compute.
Defined.
